(** * coursera-dl: validation of the command line arguments

    A shallow embedding of [src/coursera/coursera.py]: the namespace that
    [parse_args] builds, and [validate_args], which checks and rewrites it
    before anything is downloaded.

    Strings are sequences of code points below 256 ([String.string]); the
    string primitives ([str.split], [str.lstrip], [int]) follow CPython 3
    (3.6 and later) on such strings.  Logging, [sys.exit],
    [os.path.exists], the netrc reader and [getpass] are effects: a run
    yields the list of events it performed together with the way it ended,
    by returning, through [sys.exit], or by an exception that nothing
    catches. *)

From Stdlib Require Import String Ascii List ZArith Bool Lia.
Import ListNotations.
Local Open Scope string_scope.
Local Open Scope Z_scope.

(** ** Python string primitives *)

Module Py.

(** The exceptions the modelled expressions and calls can raise. *)
Inductive exn : Type :=
| AttributeError
| ValueError
| EOFError
| KeyboardInterrupt.

(** Whether [except Exception] catches it: [KeyboardInterrupt] derives
    from [BaseException] only. *)
Definition is_exception (e : exn) : bool :=
  match e with
  | KeyboardInterrupt => false
  | _ => true
  end.

(** The value of a Python expression: a value, or a raised exception. *)
Inductive res (A : Type) : Type :=
| Val (a : A)
| Raise (e : exn).
Arguments Val {A} a.
Arguments Raise {A} e.

(** [str.isspace] on one character, for code points below 256:
    TAB..CR, FS..US, SPACE, NEL and NBSP. *)
Definition isspace (c : ascii) : bool :=
  let n := N_of_ascii c in
  ((9 <=? n) && (n <=? 13) || (28 <=? n) && (n <=? 32)
   || (n =? 133) || (n =? 160))%N.

Definition isdigit (c : ascii) : bool :=
  let n := N_of_ascii c in ((48 <=? n) && (n <=? 57))%N.

Definition digit_value (c : ascii) : Z := Z.of_N (N_of_ascii c) - 48.

(** The token under construction is closed when a blank or the end of the
    string is met; empty tokens are never emitted. *)
Definition flush (cur : string) : list string :=
  match cur with
  | EmptyString => []
  | _ => [cur]
  end.

Fixpoint split_from (cur s : string) : list string :=
  match s with
  | EmptyString => flush cur
  | String c rest =>
      if isspace c then flush cur ++ split_from EmptyString rest
      else split_from (cur ++ String c EmptyString) rest
  end.

(** [s.split()]: the maximal runs of non-blank characters, in order. *)
Definition split (s : string) : list string := split_from EmptyString s.

(** [s.lstrip('.')]: every leading character that is a dot is dropped. *)
Fixpoint lstrip_dot (s : string) : string :=
  match s with
  | String "." rest => lstrip_dot rest
  | _ => s
  end.

(** The blanks that [int] ignores around a number: TAB..CR and SPACE, and
    beyond ASCII the blanks NEL and NBSP, which [int] turns into spaces
    first.  FS..US are blanks to [str.split] but not to [int]. *)
Definition int_space (c : ascii) : bool :=
  let n := N_of_ascii c in
  ((9 <=? n) && (n <=? 13) || (n =? 32) || (n =? 133) || (n =? 160))%N.

Fixpoint lstrip_space (s : string) : string :=
  match s with
  | String c rest => if int_space c then lstrip_space rest else s
  | EmptyString => s
  end.

Fixpoint rev_string (s acc : string) : string :=
  match s with
  | EmptyString => acc
  | String c rest => rev_string rest (String c acc)
  end.

(** The argument of [int] without the blanks that [int] ignores at both
    ends. *)
Definition strip_space (s : string) : string :=
  let r := lstrip_space (rev_string (lstrip_space s) EmptyString) in
  rev_string r EmptyString.

(** Where the scan of a decimal literal stands: nothing read yet, just
    after a digit, or just after an underscore. *)
Inductive scan : Type := Start | AfterDigit | AfterUnderscore.

Fixpoint digits (st : scan) (acc : Z) (s : string) : option Z :=
  match s with
  | EmptyString =>
      match st with
      | AfterDigit => Some acc
      | _ => None
      end
  | String c rest =>
      if isdigit c then digits AfterDigit (10 * acc + digit_value c) rest
      else if Ascii.eqb c "_" then
        match st with
        | AfterDigit => digits AfterUnderscore acc rest
        | _ => None
        end
      else None
  end.

Definition signed_digits (s : string) : option Z :=
  match s with
  | String "-" rest => option_map Z.opp (digits Start 0 rest)
  | String "+" rest => digits Start 0 rest
  | _ => digits Start 0 s
  end.

(** [int(x)] for a string [x], base 10: surrounding blanks are ignored, one
    sign is allowed, digits may be grouped by single underscores; anything
    else raises [ValueError].  Python integers are unbounded, hence [Z]. *)
Definition int (x : string) : res Z :=
  match signed_digits (strip_space x) with
  | Some z => Val z
  | None => Raise ValueError
  end.

(** A list comprehension [[f x for x in xs]]: the first exception raised
    by [f] ends it and no list is built. *)
Fixpoint comprehension {A B : Type} (f : A -> res B) (xs : list A)
  : res (list B) :=
  match xs with
  | [] => Val []
  | x :: rest =>
      match f x with
      | Raise e => Raise e
      | Val y =>
          match comprehension f rest with
          | Raise e => Raise e
          | Val ys => Val (y :: ys)
          end
      end
  end.

(** Truth value of a string. *)
Definition truthy (s : string) : bool :=
  match s with
  | EmptyString => false
  | _ => true
  end.

(** Truth value of an attribute that is [None] or a string. *)
Definition truthy_opt (o : option string) : bool :=
  match o with
  | None => false
  | Some s => truthy s
  end.

End Py.

(** ** The namespace of parsed arguments *)

(** [--netrc]: absent ([None]), given bare ([const=True]) or with a file. *)
Inductive netrc_t : Type :=
| NetrcNone
| NetrcTrue
| NetrcFile (file : string).

(** [args.sections] is the string of the command line until [validate_args]
    replaces it by the list of the section numbers. *)
Inductive sections_t : Type :=
| SectionsStr (s : string)
| SectionsList (l : list Z).

(** [args.formats] and [args.skip_formats]: likewise a string, then the list
    of the extensions. *)
Inductive formats_t : Type :=
| FormatsStr (s : string)
| FormatsList (l : list string).

(** One field per [dest] of [parse_args]. *)
Record Namespace : Type := {
  course : list string;  (* positional, nargs='*' *)
  preview : bool;
  about : bool;  (* --download-about *)
  reverse : bool;
  parser : string;
  proxy : option string;
  hooks : list string;  (* action='append' *)
  playlist : bool;
  username : option string;
  password : option string;
  netrc : netrc_t;  (* nargs='?', const=True *)
  sections : sections_t;
  formats : formats_t;
  skip_formats : formats_t;
  section_filter : option string;
  lecture_filter : option string;
  resource_filter : option string;
  destination : string;
  output : string;
  archive : bool;
  overwrite : bool;
  max_filename_length : Z;  (* type=int *)
  wget : option string;  (* nargs='?', const='wget' *)
  curl : option string;  (* nargs='?', const='curl' *)
  aria2 : option string;  (* nargs='?', const='aria2c' *)
  axel : option string;  (* nargs='?', const='axel' *)
  cookies : option string;
  lectures_page : option string;  (* no default given *)
  skip_download : bool;
  simulate : bool;
  debug : bool;
  quiet : bool;
  cache_dir : option string;
  no_cache_dir : bool;
  clear_cache : bool
}.

Definition default_args : Namespace := {|
  course := [];
  preview := false;
  about := false;
  reverse := false;
  parser := "html5lib";
  proxy := None;
  hooks := [];
  playlist := false;
  username := None;
  password := None;
  netrc := NetrcNone;
  sections := SectionsStr EmptyString;
  formats := FormatsStr EmptyString;
  skip_formats := FormatsStr EmptyString;
  section_filter := None;
  lecture_filter := None;
  resource_filter := None;
  destination := ".";
  output := ".";
  archive := false;
  overwrite := false;
  max_filename_length := 100;
  wget := None;
  curl := None;
  aria2 := None;
  axel := None;
  cookies := None;
  lectures_page := None;
  skip_download := false;
  simulate := false;
  debug := false;
  quiet := false;
  cache_dir := None;
  no_cache_dir := false;
  clear_cache := false
|}.

Definition set_parser (v : string) (a : Namespace) : Namespace :=
  {| course := course a; preview := preview a; about := about a;
     reverse := reverse a; parser := v; proxy := proxy a; hooks := hooks a;
     playlist := playlist a; username := username a; password := password a;
     netrc := netrc a; sections := sections a; formats := formats a;
     skip_formats := skip_formats a; section_filter := section_filter a;
     lecture_filter := lecture_filter a; resource_filter := resource_filter a;
     destination := destination a; output := output a; archive := archive a;
     overwrite := overwrite a; max_filename_length := max_filename_length a;
     wget := wget a; curl := curl a; aria2 := aria2 a; axel := axel a;
     cookies := cookies a; lectures_page := lectures_page a;
     skip_download := skip_download a; simulate := simulate a;
     debug := debug a; quiet := quiet a; cache_dir := cache_dir a;
     no_cache_dir := no_cache_dir a; clear_cache := clear_cache a |}.

Definition set_username (v : option string) (a : Namespace) : Namespace :=
  {| course := course a; preview := preview a; about := about a;
     reverse := reverse a; parser := parser a; proxy := proxy a;
     hooks := hooks a; playlist := playlist a; username := v;
     password := password a; netrc := netrc a; sections := sections a;
     formats := formats a; skip_formats := skip_formats a;
     section_filter := section_filter a; lecture_filter := lecture_filter a;
     resource_filter := resource_filter a; destination := destination a;
     output := output a; archive := archive a; overwrite := overwrite a;
     max_filename_length := max_filename_length a; wget := wget a;
     curl := curl a; aria2 := aria2 a; axel := axel a; cookies := cookies a;
     lectures_page := lectures_page a; skip_download := skip_download a;
     simulate := simulate a; debug := debug a; quiet := quiet a;
     cache_dir := cache_dir a; no_cache_dir := no_cache_dir a;
     clear_cache := clear_cache a |}.

Definition set_password (v : option string) (a : Namespace) : Namespace :=
  {| course := course a; preview := preview a; about := about a;
     reverse := reverse a; parser := parser a; proxy := proxy a;
     hooks := hooks a; playlist := playlist a; username := username a;
     password := v; netrc := netrc a; sections := sections a;
     formats := formats a; skip_formats := skip_formats a;
     section_filter := section_filter a; lecture_filter := lecture_filter a;
     resource_filter := resource_filter a; destination := destination a;
     output := output a; archive := archive a; overwrite := overwrite a;
     max_filename_length := max_filename_length a; wget := wget a;
     curl := curl a; aria2 := aria2 a; axel := axel a; cookies := cookies a;
     lectures_page := lectures_page a; skip_download := skip_download a;
     simulate := simulate a; debug := debug a; quiet := quiet a;
     cache_dir := cache_dir a; no_cache_dir := no_cache_dir a;
     clear_cache := clear_cache a |}.

Definition set_netrc (v : netrc_t) (a : Namespace) : Namespace :=
  {| course := course a; preview := preview a; about := about a;
     reverse := reverse a; parser := parser a; proxy := proxy a;
     hooks := hooks a; playlist := playlist a; username := username a;
     password := password a; netrc := v; sections := sections a;
     formats := formats a; skip_formats := skip_formats a;
     section_filter := section_filter a; lecture_filter := lecture_filter a;
     resource_filter := resource_filter a; destination := destination a;
     output := output a; archive := archive a; overwrite := overwrite a;
     max_filename_length := max_filename_length a; wget := wget a;
     curl := curl a; aria2 := aria2 a; axel := axel a; cookies := cookies a;
     lectures_page := lectures_page a; skip_download := skip_download a;
     simulate := simulate a; debug := debug a; quiet := quiet a;
     cache_dir := cache_dir a; no_cache_dir := no_cache_dir a;
     clear_cache := clear_cache a |}.

Definition set_sections (v : sections_t) (a : Namespace) : Namespace :=
  {| course := course a; preview := preview a; about := about a;
     reverse := reverse a; parser := parser a; proxy := proxy a;
     hooks := hooks a; playlist := playlist a; username := username a;
     password := password a; netrc := netrc a; sections := v;
     formats := formats a; skip_formats := skip_formats a;
     section_filter := section_filter a; lecture_filter := lecture_filter a;
     resource_filter := resource_filter a; destination := destination a;
     output := output a; archive := archive a; overwrite := overwrite a;
     max_filename_length := max_filename_length a; wget := wget a;
     curl := curl a; aria2 := aria2 a; axel := axel a; cookies := cookies a;
     lectures_page := lectures_page a; skip_download := skip_download a;
     simulate := simulate a; debug := debug a; quiet := quiet a;
     cache_dir := cache_dir a; no_cache_dir := no_cache_dir a;
     clear_cache := clear_cache a |}.

Definition set_formats (v : formats_t) (a : Namespace) : Namespace :=
  {| course := course a; preview := preview a; about := about a;
     reverse := reverse a; parser := parser a; proxy := proxy a;
     hooks := hooks a; playlist := playlist a; username := username a;
     password := password a; netrc := netrc a; sections := sections a;
     formats := v; skip_formats := skip_formats a;
     section_filter := section_filter a; lecture_filter := lecture_filter a;
     resource_filter := resource_filter a; destination := destination a;
     output := output a; archive := archive a; overwrite := overwrite a;
     max_filename_length := max_filename_length a; wget := wget a;
     curl := curl a; aria2 := aria2 a; axel := axel a; cookies := cookies a;
     lectures_page := lectures_page a; skip_download := skip_download a;
     simulate := simulate a; debug := debug a; quiet := quiet a;
     cache_dir := cache_dir a; no_cache_dir := no_cache_dir a;
     clear_cache := clear_cache a |}.

Definition set_skip_formats (v : formats_t) (a : Namespace) : Namespace :=
  {| course := course a; preview := preview a; about := about a;
     reverse := reverse a; parser := parser a; proxy := proxy a;
     hooks := hooks a; playlist := playlist a; username := username a;
     password := password a; netrc := netrc a; sections := sections a;
     formats := formats a; skip_formats := v;
     section_filter := section_filter a; lecture_filter := lecture_filter a;
     resource_filter := resource_filter a; destination := destination a;
     output := output a; archive := archive a; overwrite := overwrite a;
     max_filename_length := max_filename_length a; wget := wget a;
     curl := curl a; aria2 := aria2 a; axel := axel a; cookies := cookies a;
     lectures_page := lectures_page a; skip_download := skip_download a;
     simulate := simulate a; debug := debug a; quiet := quiet a;
     cache_dir := cache_dir a; no_cache_dir := no_cache_dir a;
     clear_cache := clear_cache a |}.

Definition set_section_filter (v : option string) (a : Namespace) : Namespace :=
  {| course := course a; preview := preview a; about := about a;
     reverse := reverse a; parser := parser a; proxy := proxy a;
     hooks := hooks a; playlist := playlist a; username := username a;
     password := password a; netrc := netrc a; sections := sections a;
     formats := formats a; skip_formats := skip_formats a; section_filter := v;
     lecture_filter := lecture_filter a; resource_filter := resource_filter a;
     destination := destination a; output := output a; archive := archive a;
     overwrite := overwrite a; max_filename_length := max_filename_length a;
     wget := wget a; curl := curl a; aria2 := aria2 a; axel := axel a;
     cookies := cookies a; lectures_page := lectures_page a;
     skip_download := skip_download a; simulate := simulate a;
     debug := debug a; quiet := quiet a; cache_dir := cache_dir a;
     no_cache_dir := no_cache_dir a; clear_cache := clear_cache a |}.

Definition set_lecture_filter (v : option string) (a : Namespace) : Namespace :=
  {| course := course a; preview := preview a; about := about a;
     reverse := reverse a; parser := parser a; proxy := proxy a;
     hooks := hooks a; playlist := playlist a; username := username a;
     password := password a; netrc := netrc a; sections := sections a;
     formats := formats a; skip_formats := skip_formats a;
     section_filter := section_filter a; lecture_filter := v;
     resource_filter := resource_filter a; destination := destination a;
     output := output a; archive := archive a; overwrite := overwrite a;
     max_filename_length := max_filename_length a; wget := wget a;
     curl := curl a; aria2 := aria2 a; axel := axel a; cookies := cookies a;
     lectures_page := lectures_page a; skip_download := skip_download a;
     simulate := simulate a; debug := debug a; quiet := quiet a;
     cache_dir := cache_dir a; no_cache_dir := no_cache_dir a;
     clear_cache := clear_cache a |}.

Definition set_resource_filter (v : option string) (a : Namespace) : Namespace :=
  {| course := course a; preview := preview a; about := about a;
     reverse := reverse a; parser := parser a; proxy := proxy a;
     hooks := hooks a; playlist := playlist a; username := username a;
     password := password a; netrc := netrc a; sections := sections a;
     formats := formats a; skip_formats := skip_formats a;
     section_filter := section_filter a; lecture_filter := lecture_filter a;
     resource_filter := v; destination := destination a; output := output a;
     archive := archive a; overwrite := overwrite a;
     max_filename_length := max_filename_length a; wget := wget a;
     curl := curl a; aria2 := aria2 a; axel := axel a; cookies := cookies a;
     lectures_page := lectures_page a; skip_download := skip_download a;
     simulate := simulate a; debug := debug a; quiet := quiet a;
     cache_dir := cache_dir a; no_cache_dir := no_cache_dir a;
     clear_cache := clear_cache a |}.

Definition set_max_filename_length (v : Z) (a : Namespace) : Namespace :=
  {| course := course a; preview := preview a; about := about a;
     reverse := reverse a; parser := parser a; proxy := proxy a;
     hooks := hooks a; playlist := playlist a; username := username a;
     password := password a; netrc := netrc a; sections := sections a;
     formats := formats a; skip_formats := skip_formats a;
     section_filter := section_filter a; lecture_filter := lecture_filter a;
     resource_filter := resource_filter a; destination := destination a;
     output := output a; archive := archive a; overwrite := overwrite a;
     max_filename_length := v; wget := wget a; curl := curl a;
     aria2 := aria2 a; axel := axel a; cookies := cookies a;
     lectures_page := lectures_page a; skip_download := skip_download a;
     simulate := simulate a; debug := debug a; quiet := quiet a;
     cache_dir := cache_dir a; no_cache_dir := no_cache_dir a;
     clear_cache := clear_cache a |}.

Definition set_wget (v : option string) (a : Namespace) : Namespace :=
  {| course := course a; preview := preview a; about := about a;
     reverse := reverse a; parser := parser a; proxy := proxy a;
     hooks := hooks a; playlist := playlist a; username := username a;
     password := password a; netrc := netrc a; sections := sections a;
     formats := formats a; skip_formats := skip_formats a;
     section_filter := section_filter a; lecture_filter := lecture_filter a;
     resource_filter := resource_filter a; destination := destination a;
     output := output a; archive := archive a; overwrite := overwrite a;
     max_filename_length := max_filename_length a; wget := v; curl := curl a;
     aria2 := aria2 a; axel := axel a; cookies := cookies a;
     lectures_page := lectures_page a; skip_download := skip_download a;
     simulate := simulate a; debug := debug a; quiet := quiet a;
     cache_dir := cache_dir a; no_cache_dir := no_cache_dir a;
     clear_cache := clear_cache a |}.

Definition set_curl (v : option string) (a : Namespace) : Namespace :=
  {| course := course a; preview := preview a; about := about a;
     reverse := reverse a; parser := parser a; proxy := proxy a;
     hooks := hooks a; playlist := playlist a; username := username a;
     password := password a; netrc := netrc a; sections := sections a;
     formats := formats a; skip_formats := skip_formats a;
     section_filter := section_filter a; lecture_filter := lecture_filter a;
     resource_filter := resource_filter a; destination := destination a;
     output := output a; archive := archive a; overwrite := overwrite a;
     max_filename_length := max_filename_length a; wget := wget a; curl := v;
     aria2 := aria2 a; axel := axel a; cookies := cookies a;
     lectures_page := lectures_page a; skip_download := skip_download a;
     simulate := simulate a; debug := debug a; quiet := quiet a;
     cache_dir := cache_dir a; no_cache_dir := no_cache_dir a;
     clear_cache := clear_cache a |}.

Definition set_aria2 (v : option string) (a : Namespace) : Namespace :=
  {| course := course a; preview := preview a; about := about a;
     reverse := reverse a; parser := parser a; proxy := proxy a;
     hooks := hooks a; playlist := playlist a; username := username a;
     password := password a; netrc := netrc a; sections := sections a;
     formats := formats a; skip_formats := skip_formats a;
     section_filter := section_filter a; lecture_filter := lecture_filter a;
     resource_filter := resource_filter a; destination := destination a;
     output := output a; archive := archive a; overwrite := overwrite a;
     max_filename_length := max_filename_length a; wget := wget a;
     curl := curl a; aria2 := v; axel := axel a; cookies := cookies a;
     lectures_page := lectures_page a; skip_download := skip_download a;
     simulate := simulate a; debug := debug a; quiet := quiet a;
     cache_dir := cache_dir a; no_cache_dir := no_cache_dir a;
     clear_cache := clear_cache a |}.

Definition set_axel (v : option string) (a : Namespace) : Namespace :=
  {| course := course a; preview := preview a; about := about a;
     reverse := reverse a; parser := parser a; proxy := proxy a;
     hooks := hooks a; playlist := playlist a; username := username a;
     password := password a; netrc := netrc a; sections := sections a;
     formats := formats a; skip_formats := skip_formats a;
     section_filter := section_filter a; lecture_filter := lecture_filter a;
     resource_filter := resource_filter a; destination := destination a;
     output := output a; archive := archive a; overwrite := overwrite a;
     max_filename_length := max_filename_length a; wget := wget a;
     curl := curl a; aria2 := aria2 a; axel := v; cookies := cookies a;
     lectures_page := lectures_page a; skip_download := skip_download a;
     simulate := simulate a; debug := debug a; quiet := quiet a;
     cache_dir := cache_dir a; no_cache_dir := no_cache_dir a;
     clear_cache := clear_cache a |}.

Definition set_cookies (v : option string) (a : Namespace) : Namespace :=
  {| course := course a; preview := preview a; about := about a;
     reverse := reverse a; parser := parser a; proxy := proxy a;
     hooks := hooks a; playlist := playlist a; username := username a;
     password := password a; netrc := netrc a; sections := sections a;
     formats := formats a; skip_formats := skip_formats a;
     section_filter := section_filter a; lecture_filter := lecture_filter a;
     resource_filter := resource_filter a; destination := destination a;
     output := output a; archive := archive a; overwrite := overwrite a;
     max_filename_length := max_filename_length a; wget := wget a;
     curl := curl a; aria2 := aria2 a; axel := axel a; cookies := v;
     lectures_page := lectures_page a; skip_download := skip_download a;
     simulate := simulate a; debug := debug a; quiet := quiet a;
     cache_dir := cache_dir a; no_cache_dir := no_cache_dir a;
     clear_cache := clear_cache a |}.

(** What an option declared with [nargs='?'] and [const] stores when it is
    given: the constant when bare, the value otherwise. *)
Definition store_optional (const : string) (given : option string)
  : option string :=
  match given with
  | None => Some const
  | Some bin => Some bin
  end.

Definition opt_wget (given : option string) := set_wget (store_optional "wget" given).
Definition opt_curl (given : option string) := set_curl (store_optional "curl" given).
Definition opt_aria2 (given : option string) := set_aria2 (store_optional "aria2c" given).
Definition opt_axel (given : option string) := set_axel (store_optional "axel" given).

(** [--netrc] alone stores [True], [--netrc FILE] stores the file name. *)
Definition opt_netrc (given : option string) : Namespace -> Namespace :=
  set_netrc match given with
            | None => NetrcTrue
            | Some file => NetrcFile file
            end.

(** The arguments as [parse_args] hands them over: the three lists are
    still the strings of the command line. *)
Definition raw (a : Namespace) : bool :=
  match sections a, formats a, skip_formats a with
  | SectionsStr _, FormatsStr _, FormatsStr _ => true
  | _, _, _ => false
  end.

(** Truth value of [args.netrc]. *)
Definition netrc_truthy (n : netrc_t) : bool :=
  match n with
  | NetrcNone => false
  | NetrcTrue => true
  | NetrcFile file => Py.truthy file
  end.

(** ** Effects *)

(** What [validate_args] reads from its environment. *)
Record World : Type := {
  (** [sys.version_info], major, minor and micro *)
  version_info : N * N * N;
  (** [os.path.exists] *)
  path_exists : string -> bool;
  (** Modelled from the spec: [utils.netrc_credentials], whose module is not
      part of the sources.  Given an optional path it returns a pair of a
      user name and a password, or nothing when no entry is found. *)
  netrc_credentials : option string -> option (string * string);
  (** [getpass.getpass]: the answer typed at the prompt, or the exception
      it raises when none can be read ([EOFError]) or the operator
      interrupts ([KeyboardInterrupt]) *)
  getpass : string -> Py.res string
}.

(** What a run does that can be observed from outside. *)
Inductive event : Type :=
| LogInfo (msg : string) (params : list string)
| LogError (msg : string) (params : list string)
| PathExists (path : string)
| NetrcLookup (path : option string)
| GetPass (prompt : string).

(** How a run ends: it returns, it leaves through [sys.exit], or an
    exception escapes. *)
Inductive outcome (A : Type) : Type :=
| Returned (a : A)
| SysExit (code : Z)
| Uncaught (e : Py.exn).
Arguments Returned {A} a.
Arguments SysExit {A} code.
Arguments Uncaught {A} e.

Definition run (A : Type) : Type := list event * outcome A.

Definition ret {A : Type} (a : A) : run A := ([], Returned a).

Definition bind {A B : Type} (m : run A) (k : A -> run B) : run B :=
  match m with
  | (t, Returned a) => let (t', o) := k a in ((t ++ t')%list, o)
  | (t, SysExit code) => (t, SysExit code)
  | (t, Uncaught e) => (t, Uncaught e)
  end.

Declare Scope run_scope.
Delimit Scope run_scope with run.
Notation "x <- m ;; k" := (bind m (fun x => k))
  (at level 61, m at next level, right associativity) : run_scope.
Notation "m ;; k" := (bind m (fun _ => k))
  (at level 61, right associativity) : run_scope.
Local Open Scope run_scope.

Definition emit (e : event) : run unit := ([e], Returned tt).
Definition logging_info (msg : string) (params : list string) : run unit :=
  emit (LogInfo msg params).
Definition logging_error (msg : string) (params : list string) : run unit :=
  emit (LogError msg params).
Definition sys_exit {A : Type} (code : Z) : run A := ([], SysExit code).
Definition when (b : bool) (m : run unit) : run unit :=
  if b then m else ret tt.

(** An expression evaluated outside any [try]: its exception escapes. *)
Definition eval {A : Type} (r : Py.res A) : run A :=
  match r with
  | Py.Val a => ret a
  | Py.Raise e => ([], Uncaught e)
  end.

Definition os_path_exists (w : World) (path : string) : run bool :=
  emit (PathExists path) ;; ret (path_exists w path).
Definition call_netrc_credentials (w : World) (path : option string)
  : run (option (string * string)) :=
  emit (NetrcLookup path) ;; ret (netrc_credentials w path).
Definition call_getpass (w : World) (prompt : string) : run string :=
  emit (GetPass prompt) ;; eval (getpass w prompt).

(** [sys.version_info < (major, minor, micro)]: tuples compare
    lexicographically, and the longer [version_info] is not below a triple
    that equals its first three components. *)
Definition version_lt (v bound : N * N * N) : bool :=
  let '(a, b, c) := v in
  let '(x, y, z) := bound in
  ((a <? x) || (a =? x) && ((b <? y) || (b =? y) && (c <? z)))%N.

(** ** [validate_args] *)

Definition known_parsers : list string := ["html5lib"; "html.parser"; "lxml"].

(** Check the parser. *)
Definition check_parser (w : World) (args : Namespace) : run unit :=
  when (String.eqb (parser args) "html.parser"
        && version_lt (version_info w) (2, 7, 3)%N)
    (logging_info
       "Warning: 'html.parser' may cause problems on Python < 2.7.3" []) ;;
  when (negb (existsb (String.eqb (parser args)) known_parsers))
    (logging_error
       "Invalid parser: '%s', choose from 'html5lib', 'html.parser', 'lxml'"
       [parser args] ;;
     sys_exit 1).

(** [[int(x) for x in args.sections.split()]]; a list has no [split]. *)
Definition sections_numbers (v : sections_t) : Py.res (list Z) :=
  match v with
  | SectionsStr s => Py.comprehension Py.int (Py.split s)
  | SectionsList _ => Py.Raise Py.AttributeError
  end.

(** Check if sections is a list of integers: what [except Exception]
    catches of the expression ends the run. *)
Definition check_sections (args : Namespace) : run Namespace :=
  match sections_numbers (sections args) with
  | Py.Val l => ret (set_sections (SectionsList l) args)
  | Py.Raise e =>
      if Py.is_exception e then
        logging_error
          "Invalid sections list, this should be a list of integers." [] ;;
        sys_exit 1
      else ([], Uncaught e)
  end.

(** [[s.lstrip('.') for s in v.split()]] *)
Definition extensions (v : formats_t) : Py.res (list string) :=
  match v with
  | FormatsStr s => Py.Val (map Py.lstrip_dot (Py.split s))
  | FormatsList _ => Py.Raise Py.AttributeError
  end.

(** Split string of extensions, remove prefixing dot if there is one. *)
Definition split_formats (args : Namespace) : run Namespace :=
  f <- eval (extensions (formats args)) ;;
  let args := set_formats (FormatsList f) args in
  sf <- eval (extensions (skip_formats args)) ;;
  ret (set_skip_formats (FormatsList sf) args).

(** [if args.cookies:] the file has to exist, nothing else is looked at. *)
Definition with_cookies (w : World) (file : string) (args : Namespace)
  : run Namespace :=
  found <- os_path_exists w file ;;
  when (negb found)
    (logging_error "Cookies file not found: %s" [file] ;; sys_exit 1) ;;
  ret args.

(** [if args.netrc:] user name and password come from the netrc file. *)
Definition with_netrc (w : World) (args : Namespace) : run Namespace :=
  credentials <-
    call_netrc_credentials w
      match netrc args with
      | NetrcFile file => Some file
      | _ => None
      end ;;
  match credentials with
  | None =>
      logging_error "No credentials found in .netrc file" [] ;; sys_exit 1
  | Some (user, pass) =>
      logging_info "Credentials found in .netrc file" [] ;;
      let args := set_username (Some user) args in
      ret (set_password (Some pass) args)
  end.

(** ['{0}'.format(v)] for an attribute that is [None] or a string. *)
Definition format_opt (v : option string) : string :=
  match v with
  | Some s => s
  | None => "None"
  end.

(** Otherwise the user name is required and a missing password is asked. *)
Definition with_username (w : World) (args : Namespace) : run Namespace :=
  when (negb (Py.truthy_opt (username args)))
    (logging_error
       "Please provide a username with the -u option, or a .netrc file with the -n option."
       [] ;;
     sys_exit 1) ;;
  if negb (Py.truthy_opt (password args)) then
    pass <- call_getpass w
              ("Coursera password for " ++ format_opt (username args) ++ ": ") ;;
    ret (set_password (Some pass) args)
  else ret args.

(** We do not need the username/password if a cookies file is specified. *)
Definition check_credentials (w : World) (args : Namespace) : run Namespace :=
  match cookies args with
  | Some file =>
      if Py.truthy file then with_cookies w file args
      else if netrc_truthy (netrc args) then with_netrc w args
      else with_username w args
  | None =>
      if netrc_truthy (netrc args) then with_netrc w args
      else with_username w args
  end.

(** Validate and sanitize the command line arguments/options, fail fast. *)
Definition validate_args (w : World) (args : Namespace) : run Namespace :=
  check_parser w args ;;
  args <- check_sections args ;;
  args <- split_formats args ;;
  check_credentials w args.

(** How the prompt ends the credentials step: the answer becomes the
    password, or the exception of [getpass] escapes. *)
Definition prompted (w : World) (prompt : string) (args : Namespace)
  : outcome Namespace :=
  match getpass w prompt with
  | Py.Val pass => Returned (set_password (Some pass) args)
  | Py.Raise e => Uncaught e
  end.

(** ** Reading runs *)

Definition trace {A : Type} (r : run A) : list event := fst r.
Definition result {A : Type} (r : run A) : outcome A := snd r.

Definition map_outcome {A B : Type} (f : A -> B) (o : outcome A) : outcome B :=
  match o with
  | Returned a => Returned (f a)
  | SysExit code => SysExit code
  | Uncaught e => Uncaught e
  end.

(** The same run, with [f] applied to what it returns. *)
Definition map_run {A B : Type} (f : A -> B) (r : run A) : run B :=
  (fst r, map_outcome f (snd r)).

(** The events by which user name and password are obtained. *)
Definition is_lookup (e : event) : bool :=
  match e with
  | NetrcLookup _ | GetPass _ => true
  | _ => false
  end.

(** The parser is one of the three known ones. *)
Definition parser_known (a : Namespace) : bool :=
  existsb (String.eqb (parser a)) known_parsers.

(** What the parser check logs before it decides. *)
Definition parser_warning (w : World) (a : Namespace) : list event :=
  if String.eqb (parser a) "html.parser"
     && version_lt (version_info w) (2, 7, 3)%N
  then [LogInfo "Warning: 'html.parser' may cause problems on Python < 2.7.3" []]
  else [].

Definition parser_error (a : Namespace) : event :=
  LogError "Invalid parser: '%s', choose from 'html5lib', 'html.parser', 'lxml'"
    [parser a].

Definition sections_error : event :=
  LogError "Invalid sections list, this should be a list of integers." [].

Definition cookies_error (file : string) : event :=
  LogError "Cookies file not found: %s" [file].

Definition username_error : event :=
  LogError
    "Please provide a username with the -u option, or a .netrc file with the -n option."
    [].

(** The namespace once the three lists are in place. *)
Definition compiled (l : list Z) (f sf : list string) (a : Namespace)
  : Namespace :=
  set_skip_formats (FormatsList sf)
    (set_formats (FormatsList f) (set_sections (SectionsList l) a)).

(** Every token of the string is accepted by [int]. *)
Definition well_formed_sections (s : string) : bool :=
  forallb (fun tok => match Py.int tok with
                      | Py.Val _ => true
                      | Py.Raise _ => false
                      end) (Py.split s).

(** The sections check lets the arguments through. *)
Definition sections_ok (a : Namespace) : bool :=
  match sections a with
  | SectionsStr s => well_formed_sections s
  | SectionsList _ => false
  end.

(** The section numbers that the sections check assigns, when it passes. *)
Definition numbers_of (v : sections_t) : list Z :=
  match sections_numbers v with
  | Py.Val l => l
  | Py.Raise _ => []
  end.

(** The extensions that validation assigns to a formats option. *)
Definition extensions_of (v : formats_t) : list string :=
  match extensions v with
  | Py.Val l => l
  | Py.Raise _ => []
  end.

(** The namespace as the credentials step receives it. *)
Definition sanitized (a : Namespace) : Namespace :=
  compiled (numbers_of (sections a)) (extensions_of (formats a))
    (extensions_of (skip_formats a)) a.

(** A change [f] of the namespace commutes with validation when it leaves
    alone every field that [validate_args] reads and commutes with every
    assignment that [validate_args] makes. *)
Record unread (f : Namespace -> Namespace) : Prop := {
  unread_parser : forall a, parser (f a) = parser a;
  unread_sections : forall a, sections (f a) = sections a;
  unread_formats : forall a, formats (f a) = formats a;
  unread_skip_formats : forall a, skip_formats (f a) = skip_formats a;
  unread_cookies : forall a, cookies (f a) = cookies a;
  unread_netrc : forall a, netrc (f a) = netrc a;
  unread_username : forall a, username (f a) = username a;
  unread_password : forall a, password (f a) = password a;
  unread_set_sections : forall v a, f (set_sections v a) = set_sections v (f a);
  unread_set_formats : forall v a, f (set_formats v a) = set_formats v (f a);
  unread_set_skip_formats :
    forall v a, f (set_skip_formats v a) = set_skip_formats v (f a);
  unread_set_username : forall v a, f (set_username v a) = set_username v (f a);
  unread_set_password : forall v a, f (set_password v a) = set_password v (f a)
}.

Ltac unread_setter := constructor; intros; reflexivity.

(** ** Sample runs and the spec's vocabulary *)

(** A machine on which only [cookies.txt] exists, whose netrc reader finds
    an entry wherever it looks, and whose operator types [typed]. *)
Definition lab : World := {|
  version_info := (3, 11, 4)%N;
  path_exists := fun path => String.eqb path "cookies.txt";
  netrc_credentials := fun _ => Some ("bob", "hunter2");
  getpass := fun _ => Py.Val "typed"
|}.

(** [coursera-dl -u alice -p secret] *)
Definition alice : Namespace :=
  set_password (Some "secret") (set_username (Some "alice") default_args).

(** Every field but [sections], [formats], [skip_formats], [username] and
    [password] has in [a'] the value it has in [a]. *)
Definition unchanged_elsewhere (a a' : Namespace) : Prop :=
  course a' = course a
  /\ preview a' = preview a
  /\ about a' = about a
  /\ reverse a' = reverse a
  /\ parser a' = parser a
  /\ proxy a' = proxy a
  /\ hooks a' = hooks a
  /\ playlist a' = playlist a
  /\ section_filter a' = section_filter a
  /\ lecture_filter a' = lecture_filter a
  /\ resource_filter a' = resource_filter a
  /\ destination a' = destination a
  /\ output a' = output a
  /\ archive a' = archive a
  /\ overwrite a' = overwrite a
  /\ max_filename_length a' = max_filename_length a
  /\ wget a' = wget a
  /\ curl a' = curl a
  /\ aria2 a' = aria2 a
  /\ axel a' = axel a
  /\ cookies a' = cookies a
  /\ netrc a' = netrc a
  /\ lectures_page a' = lectures_page a
  /\ skip_download a' = skip_download a
  /\ simulate a' = simulate a
  /\ debug a' = debug a
  /\ quiet a' = quiet a
  /\ cache_dir a' = cache_dir a
  /\ no_cache_dir a' = no_cache_dir a
  /\ clear_cache a' = clear_cache a.

(** [a] with the five fields that validation assigns taken from [a']. *)
Definition assigned_from (a' a : Namespace) : Namespace :=
  set_password (password a')
    (set_username (username a')
       (set_skip_formats (skip_formats a')
          (set_formats (formats a')
             (set_sections (sections a') a)))).

(** The rule for extensions in the words of the specification: a token
    loses at most one leading dot. *)
Definition strip_one_dot (tok : string) : string :=
  match tok with
  | String "." rest => rest
  | _ => tok
  end.

(** How many of [--wget], [--curl], [--aria2] and [--axel] were given. *)
Definition backends_selected (a : Namespace) : nat :=
  List.length
    (filter (fun o : option string => match o with
                                      | Some _ => true
                                      | None => false
                                      end)
       [wget a; curl a; aria2 a; axel a]).

(** A run of [n] dots. *)
Fixpoint dots (n : nat) : string :=
  match n with
  | O => EmptyString
  | S m => String "." (dots m)
  end.

(** No character of the string is a blank. *)
Fixpoint blank_free (s : string) : bool :=
  match s with
  | EmptyString => true
  | String c rest => negb (Py.isspace c) && blank_free rest
  end.

(** ** The remaining assignments *)

Definition set_course (v : list string) (a : Namespace) : Namespace :=
  {| course := v; preview := preview a; about := about a; reverse := reverse a;
     parser := parser a; proxy := proxy a; hooks := hooks a;
     playlist := playlist a; username := username a; password := password a;
     netrc := netrc a; sections := sections a; formats := formats a;
     skip_formats := skip_formats a; section_filter := section_filter a;
     lecture_filter := lecture_filter a; resource_filter := resource_filter a;
     destination := destination a; output := output a; archive := archive a;
     overwrite := overwrite a; max_filename_length := max_filename_length a;
     wget := wget a; curl := curl a; aria2 := aria2 a; axel := axel a;
     cookies := cookies a; lectures_page := lectures_page a;
     skip_download := skip_download a; simulate := simulate a;
     debug := debug a; quiet := quiet a; cache_dir := cache_dir a;
     no_cache_dir := no_cache_dir a; clear_cache := clear_cache a |}.

Definition set_preview (v : bool) (a : Namespace) : Namespace :=
  {| course := course a; preview := v; about := about a; reverse := reverse a;
     parser := parser a; proxy := proxy a; hooks := hooks a;
     playlist := playlist a; username := username a; password := password a;
     netrc := netrc a; sections := sections a; formats := formats a;
     skip_formats := skip_formats a; section_filter := section_filter a;
     lecture_filter := lecture_filter a; resource_filter := resource_filter a;
     destination := destination a; output := output a; archive := archive a;
     overwrite := overwrite a; max_filename_length := max_filename_length a;
     wget := wget a; curl := curl a; aria2 := aria2 a; axel := axel a;
     cookies := cookies a; lectures_page := lectures_page a;
     skip_download := skip_download a; simulate := simulate a;
     debug := debug a; quiet := quiet a; cache_dir := cache_dir a;
     no_cache_dir := no_cache_dir a; clear_cache := clear_cache a |}.

Definition set_about (v : bool) (a : Namespace) : Namespace :=
  {| course := course a; preview := preview a; about := v;
     reverse := reverse a; parser := parser a; proxy := proxy a;
     hooks := hooks a; playlist := playlist a; username := username a;
     password := password a; netrc := netrc a; sections := sections a;
     formats := formats a; skip_formats := skip_formats a;
     section_filter := section_filter a; lecture_filter := lecture_filter a;
     resource_filter := resource_filter a; destination := destination a;
     output := output a; archive := archive a; overwrite := overwrite a;
     max_filename_length := max_filename_length a; wget := wget a;
     curl := curl a; aria2 := aria2 a; axel := axel a; cookies := cookies a;
     lectures_page := lectures_page a; skip_download := skip_download a;
     simulate := simulate a; debug := debug a; quiet := quiet a;
     cache_dir := cache_dir a; no_cache_dir := no_cache_dir a;
     clear_cache := clear_cache a |}.

Definition set_reverse (v : bool) (a : Namespace) : Namespace :=
  {| course := course a; preview := preview a; about := about a; reverse := v;
     parser := parser a; proxy := proxy a; hooks := hooks a;
     playlist := playlist a; username := username a; password := password a;
     netrc := netrc a; sections := sections a; formats := formats a;
     skip_formats := skip_formats a; section_filter := section_filter a;
     lecture_filter := lecture_filter a; resource_filter := resource_filter a;
     destination := destination a; output := output a; archive := archive a;
     overwrite := overwrite a; max_filename_length := max_filename_length a;
     wget := wget a; curl := curl a; aria2 := aria2 a; axel := axel a;
     cookies := cookies a; lectures_page := lectures_page a;
     skip_download := skip_download a; simulate := simulate a;
     debug := debug a; quiet := quiet a; cache_dir := cache_dir a;
     no_cache_dir := no_cache_dir a; clear_cache := clear_cache a |}.

Definition set_proxy (v : option string) (a : Namespace) : Namespace :=
  {| course := course a; preview := preview a; about := about a;
     reverse := reverse a; parser := parser a; proxy := v; hooks := hooks a;
     playlist := playlist a; username := username a; password := password a;
     netrc := netrc a; sections := sections a; formats := formats a;
     skip_formats := skip_formats a; section_filter := section_filter a;
     lecture_filter := lecture_filter a; resource_filter := resource_filter a;
     destination := destination a; output := output a; archive := archive a;
     overwrite := overwrite a; max_filename_length := max_filename_length a;
     wget := wget a; curl := curl a; aria2 := aria2 a; axel := axel a;
     cookies := cookies a; lectures_page := lectures_page a;
     skip_download := skip_download a; simulate := simulate a;
     debug := debug a; quiet := quiet a; cache_dir := cache_dir a;
     no_cache_dir := no_cache_dir a; clear_cache := clear_cache a |}.

Definition set_hooks (v : list string) (a : Namespace) : Namespace :=
  {| course := course a; preview := preview a; about := about a;
     reverse := reverse a; parser := parser a; proxy := proxy a; hooks := v;
     playlist := playlist a; username := username a; password := password a;
     netrc := netrc a; sections := sections a; formats := formats a;
     skip_formats := skip_formats a; section_filter := section_filter a;
     lecture_filter := lecture_filter a; resource_filter := resource_filter a;
     destination := destination a; output := output a; archive := archive a;
     overwrite := overwrite a; max_filename_length := max_filename_length a;
     wget := wget a; curl := curl a; aria2 := aria2 a; axel := axel a;
     cookies := cookies a; lectures_page := lectures_page a;
     skip_download := skip_download a; simulate := simulate a;
     debug := debug a; quiet := quiet a; cache_dir := cache_dir a;
     no_cache_dir := no_cache_dir a; clear_cache := clear_cache a |}.

Definition set_playlist (v : bool) (a : Namespace) : Namespace :=
  {| course := course a; preview := preview a; about := about a;
     reverse := reverse a; parser := parser a; proxy := proxy a;
     hooks := hooks a; playlist := v; username := username a;
     password := password a; netrc := netrc a; sections := sections a;
     formats := formats a; skip_formats := skip_formats a;
     section_filter := section_filter a; lecture_filter := lecture_filter a;
     resource_filter := resource_filter a; destination := destination a;
     output := output a; archive := archive a; overwrite := overwrite a;
     max_filename_length := max_filename_length a; wget := wget a;
     curl := curl a; aria2 := aria2 a; axel := axel a; cookies := cookies a;
     lectures_page := lectures_page a; skip_download := skip_download a;
     simulate := simulate a; debug := debug a; quiet := quiet a;
     cache_dir := cache_dir a; no_cache_dir := no_cache_dir a;
     clear_cache := clear_cache a |}.

Definition set_destination (v : string) (a : Namespace) : Namespace :=
  {| course := course a; preview := preview a; about := about a;
     reverse := reverse a; parser := parser a; proxy := proxy a;
     hooks := hooks a; playlist := playlist a; username := username a;
     password := password a; netrc := netrc a; sections := sections a;
     formats := formats a; skip_formats := skip_formats a;
     section_filter := section_filter a; lecture_filter := lecture_filter a;
     resource_filter := resource_filter a; destination := v;
     output := output a; archive := archive a; overwrite := overwrite a;
     max_filename_length := max_filename_length a; wget := wget a;
     curl := curl a; aria2 := aria2 a; axel := axel a; cookies := cookies a;
     lectures_page := lectures_page a; skip_download := skip_download a;
     simulate := simulate a; debug := debug a; quiet := quiet a;
     cache_dir := cache_dir a; no_cache_dir := no_cache_dir a;
     clear_cache := clear_cache a |}.

Definition set_output (v : string) (a : Namespace) : Namespace :=
  {| course := course a; preview := preview a; about := about a;
     reverse := reverse a; parser := parser a; proxy := proxy a;
     hooks := hooks a; playlist := playlist a; username := username a;
     password := password a; netrc := netrc a; sections := sections a;
     formats := formats a; skip_formats := skip_formats a;
     section_filter := section_filter a; lecture_filter := lecture_filter a;
     resource_filter := resource_filter a; destination := destination a;
     output := v; archive := archive a; overwrite := overwrite a;
     max_filename_length := max_filename_length a; wget := wget a;
     curl := curl a; aria2 := aria2 a; axel := axel a; cookies := cookies a;
     lectures_page := lectures_page a; skip_download := skip_download a;
     simulate := simulate a; debug := debug a; quiet := quiet a;
     cache_dir := cache_dir a; no_cache_dir := no_cache_dir a;
     clear_cache := clear_cache a |}.

Definition set_archive (v : bool) (a : Namespace) : Namespace :=
  {| course := course a; preview := preview a; about := about a;
     reverse := reverse a; parser := parser a; proxy := proxy a;
     hooks := hooks a; playlist := playlist a; username := username a;
     password := password a; netrc := netrc a; sections := sections a;
     formats := formats a; skip_formats := skip_formats a;
     section_filter := section_filter a; lecture_filter := lecture_filter a;
     resource_filter := resource_filter a; destination := destination a;
     output := output a; archive := v; overwrite := overwrite a;
     max_filename_length := max_filename_length a; wget := wget a;
     curl := curl a; aria2 := aria2 a; axel := axel a; cookies := cookies a;
     lectures_page := lectures_page a; skip_download := skip_download a;
     simulate := simulate a; debug := debug a; quiet := quiet a;
     cache_dir := cache_dir a; no_cache_dir := no_cache_dir a;
     clear_cache := clear_cache a |}.

Definition set_overwrite (v : bool) (a : Namespace) : Namespace :=
  {| course := course a; preview := preview a; about := about a;
     reverse := reverse a; parser := parser a; proxy := proxy a;
     hooks := hooks a; playlist := playlist a; username := username a;
     password := password a; netrc := netrc a; sections := sections a;
     formats := formats a; skip_formats := skip_formats a;
     section_filter := section_filter a; lecture_filter := lecture_filter a;
     resource_filter := resource_filter a; destination := destination a;
     output := output a; archive := archive a; overwrite := v;
     max_filename_length := max_filename_length a; wget := wget a;
     curl := curl a; aria2 := aria2 a; axel := axel a; cookies := cookies a;
     lectures_page := lectures_page a; skip_download := skip_download a;
     simulate := simulate a; debug := debug a; quiet := quiet a;
     cache_dir := cache_dir a; no_cache_dir := no_cache_dir a;
     clear_cache := clear_cache a |}.

Definition set_lectures_page (v : option string) (a : Namespace) : Namespace :=
  {| course := course a; preview := preview a; about := about a;
     reverse := reverse a; parser := parser a; proxy := proxy a;
     hooks := hooks a; playlist := playlist a; username := username a;
     password := password a; netrc := netrc a; sections := sections a;
     formats := formats a; skip_formats := skip_formats a;
     section_filter := section_filter a; lecture_filter := lecture_filter a;
     resource_filter := resource_filter a; destination := destination a;
     output := output a; archive := archive a; overwrite := overwrite a;
     max_filename_length := max_filename_length a; wget := wget a;
     curl := curl a; aria2 := aria2 a; axel := axel a; cookies := cookies a;
     lectures_page := v; skip_download := skip_download a;
     simulate := simulate a; debug := debug a; quiet := quiet a;
     cache_dir := cache_dir a; no_cache_dir := no_cache_dir a;
     clear_cache := clear_cache a |}.

Definition set_skip_download (v : bool) (a : Namespace) : Namespace :=
  {| course := course a; preview := preview a; about := about a;
     reverse := reverse a; parser := parser a; proxy := proxy a;
     hooks := hooks a; playlist := playlist a; username := username a;
     password := password a; netrc := netrc a; sections := sections a;
     formats := formats a; skip_formats := skip_formats a;
     section_filter := section_filter a; lecture_filter := lecture_filter a;
     resource_filter := resource_filter a; destination := destination a;
     output := output a; archive := archive a; overwrite := overwrite a;
     max_filename_length := max_filename_length a; wget := wget a;
     curl := curl a; aria2 := aria2 a; axel := axel a; cookies := cookies a;
     lectures_page := lectures_page a; skip_download := v;
     simulate := simulate a; debug := debug a; quiet := quiet a;
     cache_dir := cache_dir a; no_cache_dir := no_cache_dir a;
     clear_cache := clear_cache a |}.

Definition set_simulate (v : bool) (a : Namespace) : Namespace :=
  {| course := course a; preview := preview a; about := about a;
     reverse := reverse a; parser := parser a; proxy := proxy a;
     hooks := hooks a; playlist := playlist a; username := username a;
     password := password a; netrc := netrc a; sections := sections a;
     formats := formats a; skip_formats := skip_formats a;
     section_filter := section_filter a; lecture_filter := lecture_filter a;
     resource_filter := resource_filter a; destination := destination a;
     output := output a; archive := archive a; overwrite := overwrite a;
     max_filename_length := max_filename_length a; wget := wget a;
     curl := curl a; aria2 := aria2 a; axel := axel a; cookies := cookies a;
     lectures_page := lectures_page a; skip_download := skip_download a;
     simulate := v; debug := debug a; quiet := quiet a;
     cache_dir := cache_dir a; no_cache_dir := no_cache_dir a;
     clear_cache := clear_cache a |}.

Definition set_debug (v : bool) (a : Namespace) : Namespace :=
  {| course := course a; preview := preview a; about := about a;
     reverse := reverse a; parser := parser a; proxy := proxy a;
     hooks := hooks a; playlist := playlist a; username := username a;
     password := password a; netrc := netrc a; sections := sections a;
     formats := formats a; skip_formats := skip_formats a;
     section_filter := section_filter a; lecture_filter := lecture_filter a;
     resource_filter := resource_filter a; destination := destination a;
     output := output a; archive := archive a; overwrite := overwrite a;
     max_filename_length := max_filename_length a; wget := wget a;
     curl := curl a; aria2 := aria2 a; axel := axel a; cookies := cookies a;
     lectures_page := lectures_page a; skip_download := skip_download a;
     simulate := simulate a; debug := v; quiet := quiet a;
     cache_dir := cache_dir a; no_cache_dir := no_cache_dir a;
     clear_cache := clear_cache a |}.

Definition set_quiet (v : bool) (a : Namespace) : Namespace :=
  {| course := course a; preview := preview a; about := about a;
     reverse := reverse a; parser := parser a; proxy := proxy a;
     hooks := hooks a; playlist := playlist a; username := username a;
     password := password a; netrc := netrc a; sections := sections a;
     formats := formats a; skip_formats := skip_formats a;
     section_filter := section_filter a; lecture_filter := lecture_filter a;
     resource_filter := resource_filter a; destination := destination a;
     output := output a; archive := archive a; overwrite := overwrite a;
     max_filename_length := max_filename_length a; wget := wget a;
     curl := curl a; aria2 := aria2 a; axel := axel a; cookies := cookies a;
     lectures_page := lectures_page a; skip_download := skip_download a;
     simulate := simulate a; debug := debug a; quiet := v;
     cache_dir := cache_dir a; no_cache_dir := no_cache_dir a;
     clear_cache := clear_cache a |}.

Definition set_cache_dir (v : option string) (a : Namespace) : Namespace :=
  {| course := course a; preview := preview a; about := about a;
     reverse := reverse a; parser := parser a; proxy := proxy a;
     hooks := hooks a; playlist := playlist a; username := username a;
     password := password a; netrc := netrc a; sections := sections a;
     formats := formats a; skip_formats := skip_formats a;
     section_filter := section_filter a; lecture_filter := lecture_filter a;
     resource_filter := resource_filter a; destination := destination a;
     output := output a; archive := archive a; overwrite := overwrite a;
     max_filename_length := max_filename_length a; wget := wget a;
     curl := curl a; aria2 := aria2 a; axel := axel a; cookies := cookies a;
     lectures_page := lectures_page a; skip_download := skip_download a;
     simulate := simulate a; debug := debug a; quiet := quiet a;
     cache_dir := v; no_cache_dir := no_cache_dir a;
     clear_cache := clear_cache a |}.

Definition set_no_cache_dir (v : bool) (a : Namespace) : Namespace :=
  {| course := course a; preview := preview a; about := about a;
     reverse := reverse a; parser := parser a; proxy := proxy a;
     hooks := hooks a; playlist := playlist a; username := username a;
     password := password a; netrc := netrc a; sections := sections a;
     formats := formats a; skip_formats := skip_formats a;
     section_filter := section_filter a; lecture_filter := lecture_filter a;
     resource_filter := resource_filter a; destination := destination a;
     output := output a; archive := archive a; overwrite := overwrite a;
     max_filename_length := max_filename_length a; wget := wget a;
     curl := curl a; aria2 := aria2 a; axel := axel a; cookies := cookies a;
     lectures_page := lectures_page a; skip_download := skip_download a;
     simulate := simulate a; debug := debug a; quiet := quiet a;
     cache_dir := cache_dir a; no_cache_dir := v; clear_cache := clear_cache a |}.

Definition set_clear_cache (v : bool) (a : Namespace) : Namespace :=
  {| course := course a; preview := preview a; about := about a;
     reverse := reverse a; parser := parser a; proxy := proxy a;
     hooks := hooks a; playlist := playlist a; username := username a;
     password := password a; netrc := netrc a; sections := sections a;
     formats := formats a; skip_formats := skip_formats a;
     section_filter := section_filter a; lecture_filter := lecture_filter a;
     resource_filter := resource_filter a; destination := destination a;
     output := output a; archive := archive a; overwrite := overwrite a;
     max_filename_length := max_filename_length a; wget := wget a;
     curl := curl a; aria2 := aria2 a; axel := axel a; cookies := cookies a;
     lectures_page := lectures_page a; skip_download := skip_download a;
     simulate := simulate a; debug := debug a; quiet := quiet a;
     cache_dir := cache_dir a; no_cache_dir := no_cache_dir a; clear_cache := v |}.

(** ** [parse_args] and [main] *)

(** One step of [argparse] through the command line: an option that it
    has recognised, with the argument text that its action receives, or a
    refusal of its own (an unknown or ambiguous option, a missing or
    unexpected argument, positional arguments it cannot place), upon which
    it prints the usage and exits with status 2.  Which steps a command
    line makes (abbreviations, [=], where a refusal is raised) is the
    library's business and is not modelled: the steps are the input. *)
Inductive option_given : Type :=
| OptHelp
| OptVersion
| OptPreview
| OptDownloadAbout
| OptReverse
| OptParser (v : string)
| OptProxy (url : string)
| OptHooks (hook : string)
| OptPlaylist
| OptUsername (user : string)
| OptPassword (pass : string)
| OptNetrc (file : option string)
| OptSections (numbers : string)
| OptFormats (exts : string)
| OptSkipFormats (exts : string)
| OptSectionFilter (regex : string)
| OptLectureFilter (regex : string)
| OptResourceFilter (regex : string)
| OptDestination (dir : string)
| OptOutput (template : string)
| OptArchive
| OptOverwrite
| OptMaxFilenameLength (number : string)
| OptWget (bin : option string)
| OptCurl (bin : option string)
| OptAria2 (bin : option string)
| OptAxel (bin : option string)
| OptCookies (file : string)
| OptLecturesPage (file : string)
| OptSkipDownload
| OptSimulate
| OptDebug
| OptQuiet
| OptCacheDir (dir : string)
| OptNoCacheDir
| OptClearCache
| OptRefused (message : string).

(** The steps in the order taken, and the positional arguments that
    [argparse] gives to [course]. *)
Record command_line : Type := {
  options : list option_given;
  courses : list string
}.

(** The levels that [main] gives to the root logger. *)
Inductive log_level : Type := DEBUG | INFO | ERROR.

(** What the program does before and around validation. *)
Inductive activity : Type :=
| PrintHelp
| PrintVersion (version : string)
| InvalidInt (value : string)
| UsageError (message : string)
| BasicConfig (level : log_level) (format : string)
| Event (e : event).

Definition prog (A : Type) : Type := list activity * outcome A.

Definition pret {A : Type} (a : A) : prog A := ([], Returned a).

Definition pbind {A B : Type} (m : prog A) (k : A -> prog B) : prog B :=
  match m with
  | (t, Returned a) => let (t', o) := k a in ((t ++ t')%list, o)
  | (t, SysExit code) => (t, SysExit code)
  | (t, Uncaught e) => (t, Uncaught e)
  end.

Declare Scope prog_scope.
Delimit Scope prog_scope with prog.
Notation "x <- m ;; k" := (pbind m (fun x => k))
  (at level 61, m at next level, right associativity) : prog_scope.
Notation "m ;; k" := (pbind m (fun _ => k))
  (at level 61, right associativity) : prog_scope.

(** A run of the validation inside the program. *)
Definition lift {A : Type} (r : run A) : prog A := (map Event (fst r), snd r).

(** [parser.exit()] after the help or the version was printed, and
    [parser.error()] after a value was refused. *)
Definition parser_exit {A : Type} (shown : activity) : prog A :=
  ([shown], SysExit 0).
Definition parser_error_exit {A : Type} (shown : activity) : prog A :=
  ([shown], SysExit 2).

(** The action of one option on the namespace, as its [add_argument]
    declares it: [store], [store_true], [append], a constant for a bare
    [nargs='?'] option, [type=int] for the file name length; a refusal of
    the library ends the parsing. *)
Definition take_action (version : string) (o : option_given) (ns : Namespace)
  : prog Namespace :=
  match o with
  | OptHelp => parser_exit PrintHelp
  | OptVersion => parser_exit (PrintVersion version)
  | OptPreview => pret (set_preview true ns)
  | OptDownloadAbout => pret (set_about true ns)
  | OptReverse => pret (set_reverse true ns)
  | OptParser v => pret (set_parser v ns)
  | OptProxy url => pret (set_proxy (Some url) ns)
  | OptHooks hook => pret (set_hooks (hooks ns ++ [hook])%list ns)
  | OptPlaylist => pret (set_playlist true ns)
  | OptUsername user => pret (set_username (Some user) ns)
  | OptPassword pass => pret (set_password (Some pass) ns)
  | OptNetrc file => pret (opt_netrc file ns)
  | OptSections numbers => pret (set_sections (SectionsStr numbers) ns)
  | OptFormats exts => pret (set_formats (FormatsStr exts) ns)
  | OptSkipFormats exts => pret (set_skip_formats (FormatsStr exts) ns)
  | OptSectionFilter regex => pret (set_section_filter (Some regex) ns)
  | OptLectureFilter regex => pret (set_lecture_filter (Some regex) ns)
  | OptResourceFilter regex => pret (set_resource_filter (Some regex) ns)
  | OptDestination dir => pret (set_destination dir ns)
  | OptOutput template => pret (set_output template ns)
  | OptArchive => pret (set_archive true ns)
  | OptOverwrite => pret (set_overwrite true ns)
  | OptMaxFilenameLength number =>
      match Py.int number with
      | Py.Val n => pret (set_max_filename_length n ns)
      | Py.Raise _ => parser_error_exit (InvalidInt number)
      end
  | OptWget bin => pret (opt_wget bin ns)
  | OptCurl bin => pret (opt_curl bin ns)
  | OptAria2 bin => pret (opt_aria2 bin ns)
  | OptAxel bin => pret (opt_axel bin ns)
  | OptCookies file => pret (set_cookies (Some file) ns)
  | OptLecturesPage file => pret (set_lectures_page (Some file) ns)
  | OptSkipDownload => pret (set_skip_download true ns)
  | OptSimulate => pret (set_simulate true ns)
  | OptDebug => pret (set_debug true ns)
  | OptQuiet => pret (set_quiet true ns)
  | OptCacheDir dir => pret (set_cache_dir (Some dir) ns)
  | OptNoCacheDir => pret (set_no_cache_dir true ns)
  | OptClearCache => pret (set_clear_cache true ns)
  | OptRefused message => parser_error_exit (UsageError message)
  end.

(** The actions are taken in the order of the command line. *)
Fixpoint take_actions (version : string) (opts : list option_given)
  (ns : Namespace) : prog Namespace :=
  match opts with
  | [] => pret ns
  | o :: rest =>
      (ns <- take_action version o ns ;; take_actions version rest ns)%prog
  end.

(** Parse the command line arguments/options: the namespace starts from the
    defaults, the options act on it in turn, the positional arguments make
    the list of courses.  [version] is [_version.__version__], whose module
    is not part of the sources. *)
Definition parse_args (version : string) (cmd : command_line)
  : prog Namespace :=
  (ns <- take_actions version (options cmd) default_args ;;
   pret (set_course (courses cmd) ns))%prog.

Definition logging_basicConfig (level : log_level) (format : string)
  : prog unit :=
  ([BasicConfig level format], Returned tt).

(** [main]: the logging system is initialized first, then the arguments
    are validated and the program announces itself. *)
Definition main (w : World) (version : string) (cmd : command_line)
  : prog unit :=
  (args <- parse_args version cmd ;;
   (if debug args then
      logging_basicConfig DEBUG "%(name)s[%(funcName)s] %(message)s"
    else if quiet args then
      logging_basicConfig ERROR "%(name)s: %(message)s"
    else logging_basicConfig INFO "%(message)s") ;;
   args <- lift (validate_args w args) ;;
   lift (logging_info
           ("Coursera-dl v" ++ version ++ " (" ++ parser args ++ ")") []))%prog.

(** The root logger lets a record through when the record's level is not
    below its own; what is not a log record is not logged. *)
Definition emitted (level : log_level) (e : event) : bool :=
  match e with
  | LogError _ _ => true
  | LogInfo _ _ =>
      match level with
      | ERROR => false
      | _ => true
      end
  | _ => false
  end.

(** The log records that the configured logger lets through; nothing is
    logged before [basicConfig] is called. *)
Fixpoint log_output (level : option log_level) (t : list activity)
  : list event :=
  match t with
  | [] => []
  | BasicConfig l _ :: rest => log_output (Some l) rest
  | Event e :: rest =>
      match level with
      | Some l => if emitted l e then e :: log_output level rest
                  else log_output level rest
      | None => log_output level rest
      end
  | _ :: rest => log_output level rest
  end.

(** ** Vocabulary of the further properties *)

Definition is_error (e : event) : bool :=
  match e with
  | LogError _ _ => true
  | _ => false
  end.

Definition is_getpass (e : event) : bool :=
  match e with
  | GetPass _ => true
  | _ => false
  end.

(** The events that reach outside the program for the credentials: the
    cookies file test, the netrc reader, the prompt. *)
Definition touches_environment (e : event) : bool :=
  match e with
  | PathExists _ | NetrcLookup _ | GetPass _ => true
  | _ => false
  end.

(** The path handed to the netrc reader: none for a bare [--netrc]. *)
Definition netrc_path (n : netrc_t) : option string :=
  match n with
  | NetrcFile file => Some file
  | _ => None
  end.

(** Every character of the string is a blank. *)
Fixpoint all_blank (s : string) : bool :=
  match s with
  | EmptyString => true
  | String c rest => Py.isspace c && all_blank rest
  end.

(** The hooks among the options, in the order given. *)
Definition hooks_given (opts : list option_given) : list string :=
  flat_map (fun o => match o with
                     | OptHooks hook => [hook]
                     | _ => []
                     end) opts.

(** A step that ends the parsing: help, version, a file name length that
    is no integer, or a refusal of the library. *)
Definition stops_parsing (o : option_given) : bool :=
  match o with
  | OptHelp | OptVersion | OptRefused _ => true
  | OptMaxFilenameLength number =>
      match Py.int number with
      | Py.Val _ => false
      | Py.Raise _ => true
      end
  | _ => false
  end.

(** [coursera-dl -u alice -p secret --hooks a --quiet --hooks b ml-001] *)
Definition quiet_alice : command_line := {|
  options := [OptUsername "alice"; OptPassword "secret"; OptHooks "a";
              OptQuiet; OptHooks "b"];
  courses := ["ml-001"]
|}.

Definition is_debug_option (o : option_given) : bool :=
  match o with
  | OptDebug => true
  | _ => false
  end.

Definition is_quiet_option (o : option_given) : bool :=
  match o with
  | OptQuiet => true
  | _ => false
  end.

(** What the program does once the command line is parsed: it configures
    the logging, or performs an event of the validation or of the
    announcement. *)
Definition after_parsing (x : activity) : bool :=
  match x with
  | BasicConfig _ _ | Event _ => true
  | _ => false
  end.

(** The line by which [main] announces itself. *)
Definition announcement (version parser_name : string) : activity :=
  Event (LogInfo ("Coursera-dl v" ++ version ++ " (" ++ parser_name ++ ")") []).

(** [coursera-dl --quiet --debug -u alice -p secret] *)
Definition debug_alice : command_line := {|
  options := [OptQuiet; OptDebug; OptUsername "alice"; OptPassword "secret"];
  courses := []
|}.

(** What the program did, and how it ended. *)
Definition activities {A : Type} (p : prog A) : list activity := fst p.
Definition ending {A : Type} (p : prog A) : outcome A := snd p.

(** Level and format that [main] hands to [logging.basicConfig]. *)
Definition logging_setup (debug_given quiet_given : bool) : activity :=
  if debug_given then BasicConfig DEBUG "%(name)s[%(funcName)s] %(message)s"
  else if quiet_given then BasicConfig ERROR "%(name)s: %(message)s"
  else BasicConfig INFO "%(message)s".

(** ** The primitives at work *)

Example split_demo :
  Py.split "  mp4 .pdf   srt " = ["mp4"; ".pdf"; "srt"].
Proof. reflexivity. Qed.

Example int_demo :
  map Py.int ["12"; "-3"; "+07"; "1_000"; "1__0"; "x"; "3.5"; "-"]
  = [Py.Val 12; Py.Val (-3); Py.Val 7; Py.Val 1000;
     Py.Raise Py.ValueError; Py.Raise Py.ValueError;
     Py.Raise Py.ValueError; Py.Raise Py.ValueError].
Proof. reflexivity. Qed.

(** The blanks FS..US separate tokens for [split] but are no part of a
    number for [int]; NBSP and NEL are ignored by both. *)
Example int_blanks :
  Py.int (String (ascii_of_nat 28) "5") = Py.Raise Py.ValueError
  /\ Py.int ("5" ++ String (ascii_of_nat 31) EmptyString)
     = Py.Raise Py.ValueError
  /\ Py.int (String (ascii_of_nat 160)
               (String (ascii_of_nat 9)
                  ("7" ++ String (ascii_of_nat 133) " ")))
     = Py.Val 7
  /\ Py.split ("1" ++ String (ascii_of_nat 28) "5") = ["1"; "5"].
Proof. repeat split. Qed.

(** ** Runs of [validate_args] *)

Example run_with_password :
  validate_args lab
    (set_skip_formats (FormatsStr ".ppt srt")
       (set_sections (SectionsStr "1 3 8") alice))
  = ([],
     Returned
       (set_skip_formats (FormatsList ["ppt"; "srt"])
          (set_formats (FormatsList [])
             (set_sections (SectionsList [1; 3; 8]) alice)))).
Proof. vm_compute. reflexivity. Qed.

Example run_with_prompt :
  validate_args lab (set_username (Some "alice") default_args)
  = ([GetPass "Coursera password for alice: "],
     Returned (set_password (Some "typed") (sanitized alice))).
Proof. vm_compute. reflexivity. Qed.

Example run_with_netrc :
  validate_args lab (opt_netrc (Some "my.netrc") alice)
  = ([NetrcLookup (Some "my.netrc");
      LogInfo "Credentials found in .netrc file" []],
     Returned
       (set_password (Some "hunter2")
          (set_username (Some "bob")
             (sanitized (opt_netrc (Some "my.netrc") alice))))).
Proof. vm_compute. reflexivity. Qed.

Example run_with_unknown_parser :
  validate_args lab (set_parser "bs4" alice)
  = ([LogError
        "Invalid parser: '%s', choose from 'html5lib', 'html.parser', 'lxml'"
        ["bs4"]],
     SysExit 1).
Proof. vm_compute. reflexivity. Qed.

Example run_with_bad_sections :
  validate_args lab (set_sections (SectionsStr "1 two 3") alice)
  = ([LogError "Invalid sections list, this should be a list of integers." []],
     SysExit 1).
Proof. vm_compute. reflexivity. Qed.

(** ** Lemmas on the parts *)

Lemma blank_free_snoc cur c :
  blank_free cur = true -> Py.isspace c = false ->
  blank_free (cur ++ String c EmptyString) = true.
Proof.
  intros Hcur Hc. induction cur as [|d cur IH]; cbn in *.
  - now rewrite Hc.
  - apply andb_prop in Hcur. destruct Hcur as [-> Hcur]. now apply IH.
Qed.

Lemma split_from_tokens cur s :
  blank_free cur = true ->
  Forall (fun tok => tok <> EmptyString /\ blank_free tok = true)
    (Py.split_from cur s).
Proof.
  revert cur. induction s as [|c rest IH]; intros cur Hcur; cbn.
  - destruct cur; constructor; [split; [discriminate|exact Hcur]|constructor].
  - destruct (Py.isspace c) eqn:Ec.
    + apply Forall_app. split; [|now apply IH].
      destruct cur; constructor; [split; [discriminate|exact Hcur]|constructor].
    + apply IH. now apply blank_free_snoc.
Qed.

(** The tokens of [split] are not empty and hold no blank. *)
Lemma split_tokens s :
  Forall (fun tok => tok <> EmptyString /\ blank_free tok = true) (Py.split s).
Proof. now apply split_from_tokens. Qed.

Lemma check_parser_eq w a :
  check_parser w a =
  if parser_known a then (parser_warning w a, Returned tt)
  else ((parser_warning w a ++ [parser_error a])%list, SysExit 1).
Proof.
  unfold check_parser, parser_warning, parser_known, parser_error.
  destruct (String.eqb (parser a) "html.parser"
            && version_lt (version_info w) (2, 7, 3)%N);
    destruct (existsb (String.eqb (parser a)) known_parsers); reflexivity.
Qed.

(** The expression of the sections raises nothing that [except Exception]
    would let through. *)
Lemma sections_numbers_raises v e :
  sections_numbers v = Py.Raise e -> Py.is_exception e = true.
Proof.
  destruct v as [s|l]; cbn [sections_numbers].
  - induction (Py.split s) as [|tok toks IH]; cbn; [discriminate|].
    unfold Py.int at 1.
    destruct (Py.signed_digits (Py.strip_space tok)).
    + destruct (Py.comprehension Py.int toks); [discriminate|].
      intros H. apply IH. congruence.
    + intros H. injection H as <-. reflexivity.
  - intros H. injection H as <-. reflexivity.
Qed.

Lemma validate_args_eq w a :
  validate_args w a =
  if parser_known a then
    match sections_numbers (sections a) with
    | Py.Val l =>
        match extensions (formats a) with
        | Py.Val f =>
            match extensions (skip_formats a) with
            | Py.Val sf =>
                let (t, o) := check_credentials w (compiled l f sf a) in
                ((parser_warning w a ++ t)%list, o)
            | Py.Raise e => (parser_warning w a, Uncaught e)
            end
        | Py.Raise e => (parser_warning w a, Uncaught e)
        end
    | Py.Raise _ => ((parser_warning w a ++ [sections_error])%list, SysExit 1)
    end
  else ((parser_warning w a ++ [parser_error a])%list, SysExit 1).
Proof.
  unfold validate_args. rewrite check_parser_eq.
  destruct (parser_known a); [|reflexivity].
  unfold check_sections, split_formats, compiled.
  destruct (sections_numbers (sections a)) as [l|e] eqn:Es;
    [|now rewrite (sections_numbers_raises _ _ Es)].
  cbn -[check_credentials parser_warning extensions].
  destruct (extensions (formats a)) as [f|e];
    cbn -[check_credentials parser_warning extensions];
    [|now rewrite List.app_nil_r].
  destruct (extensions (skip_formats a)) as [sf|e];
    cbn -[check_credentials parser_warning extensions];
    [|now rewrite List.app_nil_r].
  destruct (check_credentials w _) as [t o]. reflexivity.
Qed.

Lemma comprehension_val {A B : Type} (f : A -> Py.res B) xs ys :
  Py.comprehension f xs = Py.Val ys <->
  Forall2 (fun x y => f x = Py.Val y) xs ys.
Proof.
  revert ys. induction xs as [|x xs IH]; intros ys; cbn.
  - split.
    + intros H. injection H as <-. constructor.
    + intros H. inversion H. reflexivity.
  - destruct (f x) as [y|e] eqn:Ex.
    + destruct (Py.comprehension f xs) as [zs|e] eqn:Ec.
      * split.
        -- intros H. injection H as <-. constructor; [exact Ex|].
           now apply IH.
        -- intros H. inversion H as [|? y' ? zs' Hy Hzs]; subst.
           apply IH in Hzs. congruence.
      * split; [discriminate|].
        intros H. inversion H as [|? y' ? zs' Hy Hzs]; subst.
        apply IH in Hzs. discriminate.
    + split; [discriminate|].
      intros H. inversion H; subst. congruence.
Qed.

Lemma comprehension_raise {A B : Type} (f : A -> Py.res B) xs :
  (exists e, Py.comprehension f xs = Py.Raise e) <->
  Exists (fun x => exists e, f x = Py.Raise e) xs.
Proof.
  induction xs as [|x xs IH]; cbn.
  - split.
    + intros [e H]. discriminate.
    + intros H. inversion H.
  - destruct (f x) as [y|e] eqn:Ex.
    + destruct (Py.comprehension f xs) as [zs|e] eqn:Ec.
      * split.
        -- intros [e H]. discriminate.
        -- intros H. inversion H as [? ? [e He]|? ? Hx]; subst.
           ++ congruence.
           ++ apply IH in Hx. destruct Hx as [e He]. discriminate.
      * split.
        -- intros _. apply Exists_cons_tl. apply IH. now exists e.
        -- intros _. now exists e.
    + split.
      * intros _. apply Exists_cons_hd. now exists e.
      * intros _. now exists e.
Qed.

Lemma well_formed_sections_numbers s :
  well_formed_sections s = true <->
  exists l, sections_numbers (SectionsStr s) = Py.Val l.
Proof.
  unfold well_formed_sections. cbn [sections_numbers].
  induction (Py.split s) as [|tok toks IH]; cbn.
  - split; [now exists []|reflexivity].
  - destruct (Py.int tok) as [z|e]; cbn.
    + rewrite IH. split.
      * intros [l ->]. now exists (z :: l).
      * intros [l H]. destruct (Py.comprehension Py.int toks) as [l'|e'].
        -- now exists l'.
        -- discriminate.
    + split; [discriminate|]. intros [l H]. discriminate.
Qed.

Lemma ill_formed_sections_numbers s :
  well_formed_sections s = false ->
  sections_numbers (SectionsStr s) = Py.Raise Py.ValueError.
Proof.
  unfold well_formed_sections. cbn [sections_numbers].
  induction (Py.split s) as [|tok toks IH]; cbn; [discriminate|].
  unfold Py.int at 1 3.
  destruct (Py.signed_digits (Py.strip_space tok)); cbn; [|reflexivity].
  intros H. now rewrite (IH H).
Qed.

(** The credentials step, branch by branch. *)

Lemma check_credentials_cookies w a file :
  cookies a = Some file -> Py.truthy file = true ->
  check_credentials w a =
  if path_exists w file then ([PathExists file], Returned a)
  else ([PathExists file; cookies_error file], SysExit 1).
Proof.
  intros Hc Ht. unfold check_credentials. rewrite Hc, Ht.
  unfold with_cookies, os_path_exists.
  destruct (path_exists w file); reflexivity.
Qed.

Lemma check_credentials_no_cookies w a :
  Py.truthy_opt (cookies a) = false ->
  check_credentials w a =
  if netrc_truthy (netrc a) then with_netrc w a else with_username w a.
Proof.
  unfold check_credentials, Py.truthy_opt.
  destruct (cookies a) as [file|]; [|reflexivity].
  now intros ->.
Qed.

Lemma with_username_eq w a :
  with_username w a =
  if Py.truthy_opt (username a) then
    if Py.truthy_opt (password a) then ([], Returned a)
    else
      let prompt := "Coursera password for " ++ format_opt (username a) ++ ": " in
      ([GetPass prompt], prompted w prompt a)
  else ([username_error], SysExit 1).
Proof.
  unfold with_username, username_error, prompted, call_getpass.
  destruct (Py.truthy_opt (username a)); [|reflexivity].
  destruct (Py.truthy_opt (password a)); [reflexivity|].
  cbn. now destruct (getpass w _).
Qed.

Lemma with_netrc_eq w a :
  with_netrc w a =
  let path := match netrc a with
              | NetrcFile file => Some file
              | _ => None
              end in
  match netrc_credentials w path with
  | Some (user, pass) =>
      ([NetrcLookup path; LogInfo "Credentials found in .netrc file" []],
       Returned (set_password (Some pass) (set_username (Some user) a)))
  | None =>
      ([NetrcLookup path; LogError "No credentials found in .netrc file" []],
       SysExit 1)
  end.
Proof.
  unfold with_netrc, call_netrc_credentials. cbn.
  destruct (netrc_credentials w _) as [[user pass]|]; reflexivity.
Qed.

(** ** The run as a whole *)

Lemma sections_ok_numbers a :
  sections_ok a = true ->
  sections_numbers (sections a) = Py.Val (numbers_of (sections a)).
Proof.
  unfold sections_ok, numbers_of.
  destruct (sections a) as [s|l]; [|discriminate].
  intros H. apply well_formed_sections_numbers in H. destruct H as [l H].
  now rewrite H.
Qed.

Lemma sections_not_ok_numbers a :
  sections_ok a = false -> exists e, sections_numbers (sections a) = Py.Raise e.
Proof.
  unfold sections_ok. destruct (sections a) as [s|l].
  - intros H. exists Py.ValueError. now apply ill_formed_sections_numbers.
  - intros _. now exists Py.AttributeError.
Qed.

Lemma raw_inv a :
  raw a = true ->
  exists s f sf,
    sections a = SectionsStr s /\ formats a = FormatsStr f
    /\ skip_formats a = FormatsStr sf.
Proof.
  unfold raw.
  destruct (sections a) as [s|]; [|discriminate].
  destruct (formats a) as [f|]; [|discriminate].
  destruct (skip_formats a) as [sf|]; [|discriminate].
  intros _. now exists s, f, sf.
Qed.

Lemma parser_warning_quiet w a : existsb is_lookup (parser_warning w a) = false.
Proof. unfold parser_warning. now destruct (_ && _). Qed.

(** A run that passes the parser and sections checks is the credentials
    step on the sanitized namespace, after the parser warning if any. *)
Lemma validate_args_reaches w a :
  raw a = true -> parser_known a = true -> sections_ok a = true ->
  validate_args w a =
  ((parser_warning w a ++ trace (check_credentials w (sanitized a)))%list,
   result (check_credentials w (sanitized a))).
Proof.
  intros Hraw Hp Hs. rewrite validate_args_eq, Hp.
  rewrite (sections_ok_numbers a Hs).
  destruct (raw_inv a Hraw) as (s & f & sf & Es & Ef & Esf).
  unfold sanitized, extensions_of. rewrite Ef, Esf. cbn [extensions].
  now destruct (check_credentials w _).
Qed.

(** A run that does not pass them ends with status 1 before any lookup. *)
Lemma validate_args_stops w a :
  parser_known a && sections_ok a = false ->
  result (validate_args w a) = SysExit 1
  /\ existsb is_lookup (trace (validate_args w a)) = false.
Proof.
  intros H. rewrite validate_args_eq.
  destruct (parser_known a); cbn [andb] in H.
  - destruct (sections_not_ok_numbers a H) as [e ->]. cbn [result trace fst snd].
    split; [reflexivity|].
    now rewrite existsb_app, parser_warning_quiet.
  - cbn [result trace fst snd]. split; [reflexivity|].
    now rewrite existsb_app, parser_warning_quiet.
Qed.

(** Whatever the arguments, the lookups of a run are those of its
    credentials step. *)
Lemma validate_args_lookups w a :
  existsb is_lookup (trace (validate_args w a)) = true ->
  existsb is_lookup (trace (check_credentials w (sanitized a))) = true.
Proof.
  rewrite validate_args_eq. unfold sanitized, numbers_of, extensions_of.
  destruct (parser_known a).
  2:{ cbn [trace fst]. rewrite existsb_app, parser_warning_quiet. discriminate. }
  destruct (sections_numbers (sections a)) as [l|e].
  2:{ cbn [trace fst]. rewrite existsb_app, parser_warning_quiet. discriminate. }
  destruct (extensions (formats a)) as [f|e].
  2:{ cbn [trace fst]. rewrite parser_warning_quiet. discriminate. }
  destruct (extensions (skip_formats a)) as [sf|e].
  2:{ cbn [trace fst]. rewrite parser_warning_quiet. discriminate. }
  destruct (check_credentials w _) as [t o]. cbn [trace fst].
  now rewrite existsb_app, parser_warning_quiet.
Qed.

(** What a run returns is what its credentials step returns. *)
Lemma validate_args_returned w a a' :
  result (validate_args w a) = Returned a' ->
  parser_known a = true
  /\ sections_numbers (sections a) = Py.Val (numbers_of (sections a))
  /\ extensions (formats a) = Py.Val (extensions_of (formats a))
  /\ extensions (skip_formats a) = Py.Val (extensions_of (skip_formats a))
  /\ result (check_credentials w (sanitized a)) = Returned a'.
Proof.
  rewrite validate_args_eq. unfold sanitized, numbers_of, extensions_of.
  destruct (parser_known a); [|discriminate].
  destruct (sections_numbers (sections a)) as [l|e]; [|discriminate].
  destruct (extensions (formats a)) as [f|e]; [|discriminate].
  destruct (extensions (skip_formats a)) as [sf|e]; [|discriminate].
  destruct (check_credentials w _) as [t o]. cbn [result snd].
  intros ->. repeat split; reflexivity.
Qed.

(** The credentials step returns its argument with at most user name and
    password replaced. *)
Lemma check_credentials_returned w a a' :
  result (check_credentials w a) = Returned a' ->
  a' = set_password (password a') (set_username (username a') a).
Proof.
  unfold check_credentials.
  assert (Hn : result (with_netrc w a) = Returned a' ->
               a' = set_password (password a') (set_username (username a') a)).
  { rewrite with_netrc_eq. cbv zeta.
    destruct (netrc_credentials w _) as [[user pass]|]; cbn [result snd];
      [|discriminate].
    intros H. injection H as <-. now destruct a. }
  assert (Hu : result (with_username w a) = Returned a' ->
               a' = set_password (password a') (set_username (username a') a)).
  { rewrite with_username_eq.
    destruct (Py.truthy_opt (username a)); [|discriminate].
    destruct (Py.truthy_opt (password a)); cbv zeta; unfold prompted;
      [|destruct (getpass w _); [|discriminate]];
      cbn [result snd]; intros H; injection H as <-; now destruct a. }
  destruct (cookies a) as [file|].
  - destruct (Py.truthy file).
    + unfold with_cookies, os_path_exists.
      destruct (path_exists w file); cbn; [|discriminate].
      intros H. injection H as <-. now destruct a.
    + destruct (netrc_truthy (netrc a)); assumption.
  - destruct (netrc_truthy (netrc a)); assumption.
Qed.

(** ** Options that [validate_args] does not look at *)

Lemma unread_wget v : unread (set_wget v).
Proof. unread_setter. Qed.
Lemma unread_curl v : unread (set_curl v).
Proof. unread_setter. Qed.
Lemma unread_aria2 v : unread (set_aria2 v).
Proof. unread_setter. Qed.
Lemma unread_axel v : unread (set_axel v).
Proof. unread_setter. Qed.
Lemma unread_max_filename_length v : unread (set_max_filename_length v).
Proof. unread_setter. Qed.
Lemma unread_section_filter v : unread (set_section_filter v).
Proof. unread_setter. Qed.
Lemma unread_lecture_filter v : unread (set_lecture_filter v).
Proof. unread_setter. Qed.
Lemma unread_resource_filter v : unread (set_resource_filter v).
Proof. unread_setter. Qed.

Lemma unread_compose f g : unread f -> unread g -> unread (fun a => f (g a)).
Proof.
  intros [] []. constructor; intros; congruence.
Qed.

Section Unread.

Variable f : Namespace -> Namespace.
Hypothesis Hf : unread f.

Lemma check_credentials_unread w a :
  check_credentials w (f a) = map_run f (check_credentials w a).
Proof.
  destruct Hf. unfold check_credentials.
  assert (Hn : with_netrc w (f a) = map_run f (with_netrc w a)).
  { rewrite !with_netrc_eq. cbv zeta. rewrite unread_netrc0.
    destruct (netrc_credentials w _) as [[user pass]|]; [|reflexivity].
    unfold map_run. cbn [fst snd map_outcome].
    now rewrite unread_set_password0, unread_set_username0. }
  assert (Hu : with_username w (f a) = map_run f (with_username w a)).
  { rewrite !with_username_eq. rewrite unread_username0, unread_password0.
    destruct (Py.truthy_opt (username a)); [|reflexivity].
    destruct (Py.truthy_opt (password a)); [reflexivity|].
    unfold map_run, prompted. cbv zeta. cbn [fst snd].
    destruct (getpass w _); cbn [map_outcome]; [|reflexivity].
    now rewrite unread_set_password0. }
  rewrite unread_cookies0, unread_netrc0.
  destruct (cookies a) as [file|].
  - destruct (Py.truthy file).
    + unfold with_cookies, os_path_exists.
      now destruct (path_exists w file).
    + now destruct (netrc_truthy (netrc a)).
  - now destruct (netrc_truthy (netrc a)).
Qed.

Lemma validate_args_unread w a :
  validate_args w (f a) = map_run f (validate_args w a).
Proof.
  rewrite !validate_args_eq.
  unfold parser_known, parser_warning, parser_error.
  rewrite (unread_parser f Hf), (unread_sections f Hf),
    (unread_formats f Hf), (unread_skip_formats f Hf).
  destruct (existsb (String.eqb (parser a)) known_parsers); [|reflexivity].
  destruct (sections_numbers (sections a)) as [l|e]; [|reflexivity].
  destruct (extensions (formats a)) as [ef|e]; [|reflexivity].
  destruct (extensions (skip_formats a)) as [esf|e]; [|reflexivity].
  replace (compiled l ef esf (f a)) with (f (compiled l ef esf a)).
  2:{ unfold compiled.
      now rewrite (unread_set_skip_formats f Hf), (unread_set_formats f Hf),
        (unread_set_sections f Hf). }
  rewrite check_credentials_unread.
  now destruct (check_credentials w _).
Qed.

End Unread.

(** ** Credentials *)

(** C1, as stated, fails: with [--cookies "" --netrc] the option is set and
    its path does not exist, yet the run does not end on the cookies file:
    it reads the netrc file and returns with the credentials found there. *)
Lemma empty_cookies_consult_netrc :
  cookies (set_cookies (Some EmptyString) (opt_netrc None default_args))
  = Some EmptyString
  /\ path_exists lab EmptyString = false
  /\ validate_args lab
       (set_cookies (Some EmptyString) (opt_netrc None default_args))
     = ([NetrcLookup None; LogInfo "Credentials found in .netrc file" []],
        Returned
          (set_password (Some "hunter2")
             (set_username (Some "bob")
                (sanitized
                   (set_cookies (Some EmptyString)
                      (opt_netrc None default_args)))))).
Proof. vm_compute. repeat split. Qed.

(** C1, amended.  When [--cookies] is set to a non-empty value and the file
    exists, a run makes no netrc lookup and no prompt and leaves user name
    and password as given, also when [--netrc] is set; its credentials step
    returns the arguments as they are.  When the file does not exist the
    run ends with status 1, and the credentials step reports the cookies
    file as not found.  An empty value counts as no [--cookies] at all. *)
Theorem cookies_short_circuit w a file :
  raw a = true -> cookies a = Some file -> Py.truthy file = true ->
  (path_exists w file = true ->
   existsb is_lookup (trace (validate_args w a)) = false
   /\ (forall a', result (validate_args w a) = Returned a' ->
       username a' = username a /\ password a' = password a)
   /\ check_credentials w a = ([PathExists file], Returned a)
   /\ (parser_known a = true -> sections_ok a = true ->
       validate_args w a =
       ((parser_warning w a ++ [PathExists file])%list,
        Returned (sanitized a))))
  /\ (path_exists w file = false ->
      result (validate_args w a) = SysExit 1
      /\ existsb is_lookup (trace (validate_args w a)) = false
      /\ check_credentials w a =
         ([PathExists file; LogError "Cookies file not found: %s" [file]],
          SysExit 1)
      /\ (parser_known a = true -> sections_ok a = true ->
          validate_args w a =
          ((parser_warning w a
            ++ [PathExists file;
                LogError "Cookies file not found: %s" [file]])%list,
           SysExit 1))).
Proof.
  intros Hraw Hc Ht.
  assert (Hs : check_credentials w (sanitized a) =
               if path_exists w file
               then ([PathExists file], Returned (sanitized a))
               else ([PathExists file; cookies_error file], SysExit 1))
    by now apply check_credentials_cookies.
  assert (Hquiet : existsb is_lookup (trace (validate_args w a)) = false).
  { destruct (existsb is_lookup (trace (validate_args w a))) eqn:E;
      [|reflexivity].
    apply validate_args_lookups in E. rewrite Hs in E.
    destruct (path_exists w file); discriminate. }
  split; intros Hex.
  - rewrite Hex in Hs. repeat split.
    + exact Hquiet.
    + apply validate_args_returned in H.
      destruct H as (_ & _ & _ & _ & H). rewrite Hs in H.
      injection H as <-. reflexivity.
    + apply validate_args_returned in H.
      destruct H as (_ & _ & _ & _ & H). rewrite Hs in H.
      injection H as <-. reflexivity.
    + rewrite (check_credentials_cookies w a file Hc Ht), Hex. reflexivity.
    + intros Hp Hsec. rewrite (validate_args_reaches w a Hraw Hp Hsec), Hs.
      reflexivity.
  - rewrite Hex in Hs. repeat split.
    + destruct (parser_known a && sections_ok a) eqn:E.
      * apply andb_prop in E. destruct E as [Hp Hsec].
        rewrite (validate_args_reaches w a Hraw Hp Hsec), Hs. reflexivity.
      * now apply validate_args_stops.
    + exact Hquiet.
    + rewrite (check_credentials_cookies w a file Hc Ht), Hex. reflexivity.
    + intros Hp Hsec. rewrite (validate_args_reaches w a Hraw Hp Hsec), Hs.
      reflexivity.
Qed.

(** With [--cookies cookies.txt --netrc] on a machine whose netrc reader
    would succeed, and with [--cookies missing.txt]. *)
Lemma cookies_short_circuit_witness :
  validate_args lab
    (set_cookies (Some "cookies.txt") (opt_netrc None default_args))
  = ([PathExists "cookies.txt"],
     Returned
       (sanitized
          (set_cookies (Some "cookies.txt") (opt_netrc None default_args))))
  /\ validate_args lab
       (set_cookies (Some "missing.txt") (opt_netrc None default_args))
     = ([PathExists "missing.txt";
         LogError "Cookies file not found: %s" ["missing.txt"]],
        SysExit 1).
Proof.
  split.
  - apply (cookies_short_circuit lab
             (set_cookies (Some "cookies.txt") (opt_netrc None default_args))
             "cookies.txt" eq_refl eq_refl eq_refl); reflexivity.
  - apply (cookies_short_circuit lab
             (set_cookies (Some "missing.txt") (opt_netrc None default_args))
             "missing.txt" eq_refl eq_refl eq_refl); reflexivity.
Defined.

(** C5.  With none of [--username], [--netrc] and [--cookies] a run ends
    with status 1 without any prompt (or netrc lookup); its credentials
    step logs that the user name is missing. *)
Theorem missing_username_fails w a :
  raw a = true ->
  username a = None -> netrc a = NetrcNone -> cookies a = None ->
  result (validate_args w a) = SysExit 1
  /\ existsb is_lookup (trace (validate_args w a)) = false
  /\ check_credentials w a =
     ([LogError
         "Please provide a username with the -u option, or a .netrc file with the -n option."
         []],
      SysExit 1)
  /\ (parser_known a = true -> sections_ok a = true ->
      validate_args w a =
      ((parser_warning w a
        ++ [LogError
              "Please provide a username with the -u option, or a .netrc file with the -n option."
              []])%list,
       SysExit 1)).
Proof.
  intros Hraw Hu Hn Hc.
  assert (Hstep : forall b, username b = None -> netrc b = NetrcNone ->
                            cookies b = None ->
                            check_credentials w b = ([username_error], SysExit 1)).
  { intros b Eu En Ec. rewrite check_credentials_no_cookies by now rewrite Ec.
    rewrite En. cbn [netrc_truthy]. rewrite with_username_eq, Eu. reflexivity. }
  pose proof (Hstep (sanitized a) Hu Hn Hc) as Hs.
  assert (Hquiet : existsb is_lookup (trace (validate_args w a)) = false).
  { destruct (existsb is_lookup (trace (validate_args w a))) eqn:E;
      [|reflexivity].
    apply validate_args_lookups in E. rewrite Hs in E. discriminate. }
  repeat split.
  - destruct (parser_known a && sections_ok a) eqn:E.
    + apply andb_prop in E. destruct E as [Hp Hsec].
      rewrite (validate_args_reaches w a Hraw Hp Hsec), Hs. reflexivity.
    + now apply validate_args_stops.
  - exact Hquiet.
  - now apply Hstep.
  - intros Hp Hsec. rewrite (validate_args_reaches w a Hraw Hp Hsec), Hs.
    reflexivity.
Qed.

(** [coursera-dl] with no option at all. *)
Lemma missing_username_fails_witness :
  validate_args lab default_args
  = ([LogError
        "Please provide a username with the -u option, or a .netrc file with the -n option."
        []],
     SysExit 1).
Proof.
  apply (missing_username_fails lab default_args
           eq_refl eq_refl eq_refl eq_refl); reflexivity.
Defined.

(** ** What validation leaves alone *)

(** C9.  On every run that returns, the namespace returned is the one
    received with only [sections], [formats], [skip_formats], [username]
    and [password] possibly replaced: every other field is as parsed. *)
Theorem validate_args_frame w a a' :
  result (validate_args w a) = Returned a' ->
  a' = assigned_from a' a /\ unchanged_elsewhere a a'.
Proof.
  intros H. apply validate_args_returned in H.
  destruct H as (_ & _ & _ & _ & H).
  apply check_credentials_returned in H.
  assert (E : a' = assigned_from a' a).
  { assert (Es : sections a' = SectionsList (numbers_of (sections a)))
      by (rewrite H; reflexivity).
    assert (Ef : formats a' = FormatsList (extensions_of (formats a)))
      by (rewrite H; reflexivity).
    assert (Esf : skip_formats a'
                  = FormatsList (extensions_of (skip_formats a)))
      by (rewrite H; reflexivity).
    unfold assigned_from. rewrite Es, Ef, Esf. exact H. }
  split; [exact E|].
  rewrite E. unfold unchanged_elsewhere, assigned_from.
  destruct a. cbn. repeat split; reflexivity.
Qed.

(** [coursera-dl -u alice --sections "1 3" -f ".mp4 pdf" --wget], the
    password being typed at the prompt. *)
Lemma validate_args_frame_witness :
  unchanged_elsewhere
    (opt_wget None
       (set_formats (FormatsStr ".mp4 pdf")
          (set_sections (SectionsStr "1 3")
             (set_username (Some "alice") default_args))))
    (opt_wget None
       (set_password (Some "typed")
          (set_formats (FormatsList ["mp4"; "pdf"])
             (set_sections (SectionsList [1; 3])
                (set_skip_formats (FormatsList [])
                   (set_username (Some "alice") default_args)))))).
Proof.
  apply (validate_args_frame lab
           (opt_wget None
              (set_formats (FormatsStr ".mp4 pdf")
                 (set_sections (SectionsStr "1 3")
                    (set_username (Some "alice") default_args))))).
  reflexivity.
Defined.

(** ** Empty credentials *)

Ltac by_cases :=
  rewrite !validate_args_eq;
  unfold parser_known, parser_warning, parser_error, compiled,
    check_credentials, map_run;
  repeat first
    [ rewrite with_netrc_eq
    | rewrite with_username_eq
    | progress unfold prompted
    | progress cbn -[String.eqb version_lt sections_numbers extensions
                     known_parsers with_netrc with_username]
    | match goal with
      | |- context [if ?b then _ else _] => destruct b
      | |- context [match sections_numbers ?v with _ => _ end] =>
          destruct (sections_numbers v)
      | |- context [match extensions ?v with _ => _ end] =>
          destruct (extensions v)
      | |- context [match netrc_credentials ?w ?p with _ => _ end] =>
          destruct (netrc_credentials w p) as [[? ?]|]
      | |- context [match ?o with Some _ => _ | None => _ end] =>
          destruct o
      | |- context [path_exists ?w ?p] => destruct (path_exists w p)
      | |- context [getpass ?w ?p] => destruct (getpass w p)
      end ];
  try reflexivity.

Lemma empty_cookies_as_absent w a :
  validate_args w (set_cookies (Some EmptyString) a)
  = map_run (set_cookies (Some EmptyString))
      (validate_args w (set_cookies None a)).
Proof.
  destruct a. by_cases.
Qed.

Lemma empty_netrc_as_absent w a :
  validate_args w (set_netrc (NetrcFile EmptyString) a)
  = map_run (set_netrc (NetrcFile EmptyString))
      (validate_args w (set_netrc NetrcNone a)).
Proof.
  destruct a. by_cases.
Qed.

Lemma empty_username_as_absent w a :
  map_run (set_username None)
    (validate_args w (set_username (Some EmptyString) a))
  = map_run (set_username None) (validate_args w (set_username None a)).
Proof.
  destruct a. by_cases.
Qed.

Lemma empty_password_as_absent w a :
  map_run (set_password None)
    (validate_args w (set_password (Some EmptyString) a))
  = map_run (set_password None) (validate_args w (set_password None a)).
Proof.
  destruct a. by_cases.
Qed.

(** C10.  An empty string given to [--cookies], [--netrc], [--username] or
    [--password] makes the run what it is without the option: the same
    events and the same end, the namespace returned differing at most in
    that very field.  So [--username ""] without netrc and cookies ends on
    the missing user name, and [--password ""] leads to the prompt, whose
    answer becomes the password (an exception of the prompt escapes). *)
Theorem empty_credentials_as_absent w a :
  validate_args w (set_cookies (Some EmptyString) a)
  = map_run (set_cookies (Some EmptyString))
      (validate_args w (set_cookies None a))
  /\ validate_args w (set_netrc (NetrcFile EmptyString) a)
     = map_run (set_netrc (NetrcFile EmptyString))
         (validate_args w (set_netrc NetrcNone a))
  /\ map_run (set_username None)
       (validate_args w (set_username (Some EmptyString) a))
     = map_run (set_username None) (validate_args w (set_username None a))
  /\ map_run (set_password None)
       (validate_args w (set_password (Some EmptyString) a))
     = map_run (set_password None) (validate_args w (set_password None a))
  /\ (raw a = true -> parser_known a = true -> sections_ok a = true ->
      Py.truthy_opt (cookies a) = false -> netrc_truthy (netrc a) = false ->
      validate_args w (set_username (Some EmptyString) a)
      = ((parser_warning w a
          ++ [LogError
                "Please provide a username with the -u option, or a .netrc file with the -n option."
                []])%list,
         SysExit 1)
      /\ forall user,
          username a = Some user -> Py.truthy user = true ->
          validate_args w (set_password (Some EmptyString) a)
          = ((parser_warning w a
              ++ [GetPass ("Coursera password for " ++ user ++ ": ")])%list,
             match getpass w ("Coursera password for " ++ user ++ ": ") with
             | Py.Val typed =>
                 Returned (set_password (Some typed) (sanitized a))
             | Py.Raise e => Uncaught e
             end)).
Proof.
  split; [apply empty_cookies_as_absent|].
  split; [apply empty_netrc_as_absent|].
  split; [apply empty_username_as_absent|].
  split; [apply empty_password_as_absent|].
  intros Hraw Hp Hs Hc Hn. split.
  - rewrite (validate_args_reaches w (set_username (Some EmptyString) a)
               Hraw Hp Hs).
    rewrite check_credentials_no_cookies by exact Hc.
    change (netrc (sanitized (set_username (Some EmptyString) a)))
      with (netrc a).
    rewrite Hn, with_username_eq. reflexivity.
  - intros user Hu Ht.
    rewrite (validate_args_reaches w (set_password (Some EmptyString) a)
               Hraw Hp Hs).
    rewrite check_credentials_no_cookies by exact Hc.
    change (netrc (sanitized (set_password (Some EmptyString) a)))
      with (netrc a).
    rewrite Hn, with_username_eq.
    change (username (sanitized (set_password (Some EmptyString) a)))
      with (username a).
    rewrite Hu. cbn [Py.truthy_opt]. rewrite Ht.
    cbn [password sanitized compiled set_skip_formats set_formats
         set_sections set_password Py.truthy_opt Py.truthy format_opt].
    cbv zeta. cbn [trace result fst snd]. unfold prompted.
    destruct (getpass w _); [|reflexivity].
    destruct a; reflexivity.
Qed.

(** [coursera-dl -u "" -p secret] and [coursera-dl -u alice -p ""]. *)
Lemma empty_credentials_as_absent_witness :
  validate_args lab (set_username (Some EmptyString) alice)
  = ([LogError
        "Please provide a username with the -u option, or a .netrc file with the -n option."
        []],
     SysExit 1)
  /\ validate_args lab (set_password (Some EmptyString) alice)
     = ([GetPass "Coursera password for alice: "],
        Returned (set_password (Some "typed") (sanitized alice))).
Proof.
  destruct (empty_credentials_as_absent lab alice)
    as (_ & _ & _ & _ & H).
  destruct (H eq_refl eq_refl eq_refl eq_refl eq_refl) as [Hu Hp].
  split.
  - exact Hu.
  - exact (Hp "alice" eq_refl eq_refl).
Defined.

(** ** Options passed through *)

(** C3, as stated, fails: [coursera-dl -u alice -p secret --wget --curl]
    selects two backends and is accepted. *)
Lemma two_backends_accepted :
  backends_selected (opt_curl None (opt_wget None alice)) = 2%nat
  /\ validate_args lab (opt_curl None (opt_wget None alice))
     = ([], Returned (sanitized (opt_curl None (opt_wget None alice))))
  /\ wget (sanitized (opt_curl None (opt_wget None alice))) = Some "wget"
  /\ curl (sanitized (opt_curl None (opt_wget None alice))) = Some "curl".
Proof. vm_compute. repeat split. Qed.

(** C3, amended.  Validation does not look at the four backend options:
    whatever they hold, none, one or several of them, the run is the same
    and the four values are returned as they were parsed. *)
Theorem backends_not_checked w a x y z t :
  validate_args w (set_wget x (set_curl y (set_aria2 z (set_axel t a))))
  = map_run (fun r => set_wget x (set_curl y (set_aria2 z (set_axel t r))))
      (validate_args w a).
Proof.
  apply (validate_args_unread
           (fun r => set_wget x (set_curl y (set_aria2 z (set_axel t r))))).
  apply (unread_compose (set_wget x)); [apply unread_wget|].
  apply (unread_compose (set_curl y)); [apply unread_curl|].
  apply (unread_compose (set_aria2 z)); [apply unread_aria2|].
  apply unread_axel.
Qed.

(** C6, as stated, fails: [coursera-dl -u alice -p secret
    --max-filename-length 0] is accepted. *)
Lemma zero_filename_length_accepted :
  validate_args lab (set_max_filename_length 0 alice)
  = ([], Returned (sanitized (set_max_filename_length 0 alice)))
  /\ max_filename_length (sanitized (set_max_filename_length 0 alice)) = 0.
Proof. split; reflexivity. Qed.

(** C6, amended.  Validation does not look at [max_filename_length]: with
    any value, zero and negative ones included, the run is the one of the
    default value 100, and the value is returned as parsed. *)
Theorem max_filename_length_not_checked w a n :
  max_filename_length default_args = 100
  /\ validate_args w (set_max_filename_length n a)
     = map_run (set_max_filename_length n)
         (validate_args w (set_max_filename_length 100 a)).
Proof.
  split; [reflexivity|].
  rewrite !(validate_args_unread _ (unread_max_filename_length _)).
  unfold map_run. cbn [fst snd].
  destruct (snd (validate_args w a)); reflexivity.
Qed.

(** C7, as stated, fails: three patterns that no regular expression
    compiler accepts (an unclosed group, an unclosed character set, a
    repetition of nothing) pass validation and come back as text. *)
Lemma malformed_filters_accepted :
  validate_args lab
    (set_section_filter (Some "(")
       (set_lecture_filter (Some "[a-")
          (set_resource_filter (Some "*") alice)))
  = ([],
     Returned
       (set_section_filter (Some "(")
          (set_lecture_filter (Some "[a-")
             (set_resource_filter (Some "*") (sanitized alice))))).
Proof. reflexivity. Qed.

(** C7, amended.  Validation neither compiles nor looks at the three
    filter options: whatever they hold, nothing, a pattern or a malformed
    pattern, the run is the same and the three values are returned as text,
    as they were parsed. *)
Theorem filters_not_compiled w a sf lf rf :
  validate_args w
    (set_section_filter sf (set_lecture_filter lf (set_resource_filter rf a)))
  = map_run
      (fun r =>
         set_section_filter sf
           (set_lecture_filter lf (set_resource_filter rf r)))
      (validate_args w a).
Proof.
  apply (validate_args_unread
           (fun r =>
              set_section_filter sf
                (set_lecture_filter lf (set_resource_filter rf r)))).
  apply (unread_compose (set_section_filter sf));
    [apply unread_section_filter|].
  apply (unread_compose (set_lecture_filter lf));
    [apply unread_lecture_filter|].
  apply unread_resource_filter.
Qed.

(** ** The scope filter *)

Lemma comprehension_In {A B : Type} (f : A -> Py.res B) xs ys :
  Forall2 (fun x y => f x = Py.Val y) xs ys ->
  forall y, In y ys <-> exists x, In x xs /\ f x = Py.Val y.
Proof.
  induction 1 as [|x y xs ys Hxy Hrest IH]; intros z; cbn.
  - split; [tauto|]. intros [x [[] _]].
  - rewrite IH. split.
    + intros [<-|[x' [Hin HR]]].
      * exists x. auto.
      * exists x'. auto.
    + intros [x' [[<-|Hin] HR]].
      * left. congruence.
      * right. exists x'. auto.
Qed.

Lemma lstrip_dot_spec tok :
  exists n, tok = dots n ++ Py.lstrip_dot tok.
Proof.
  induction tok as [|c rest [n IH]].
  - now exists O.
  - destruct (Ascii.eqb_spec c ".") as [->|Hc].
    + exists (S n). cbn. now rewrite <- IH.
    + exists O. cbn.
      destruct c as [[] [] [] [] [] [] [] []]; try reflexivity.
      now contradiction Hc.
Qed.

Lemma lstrip_dot_no_dot tok rest : Py.lstrip_dot tok <> String "." rest.
Proof.
  induction tok as [|c tok IH]; [discriminate|].
  destruct (Ascii.eqb_spec c ".") as [->|Hc]; [exact IH|].
  cbn. destruct c as [[] [] [] [] [] [] [] []]; try discriminate.
  now contradiction Hc.
Qed.

(** C2, as stated, fails: the numbers of [--sections "3 1 3"] come back as
    the list [[3; 1; 3]], in the order of the tokens and with the
    duplicate. *)
Lemma duplicate_sections_kept :
  (exists a',
      validate_args lab (set_sections (SectionsStr "3 1 3") alice)
      = ([], Returned a')
      /\ sections a' = SectionsList [3; 1; 3])
  /\ ~ NoDup [3; 1; 3].
Proof.
  split.
  - eexists. split; reflexivity.
  - intros H. inversion H as [|? ? Hin _]; subst. apply Hin. cbn. auto.
Qed.

(** C2, amended.  For a sections string whose tokens are all accepted by
    [int], validation puts in [sections] the list of their values, token by
    token: in the order of the tokens and with duplicates kept, so that the
    integers in the list are exactly the values of the tokens.  For a string
    with a token that [int] rejects, the run ends with status 1 and no list
    is produced. *)
Theorem sections_all_or_nothing w a s :
  sections a = SectionsStr s ->
  (well_formed_sections s = true ->
   exists l,
     Forall2 (fun tok z => Py.int tok = Py.Val z) (Py.split s) l
     /\ (forall z, In z l <->
                   exists tok, In tok (Py.split s) /\ Py.int tok = Py.Val z)
     /\ check_sections a = ([], Returned (set_sections (SectionsList l) a))
     /\ (forall a', result (validate_args w a) = Returned a' ->
                    sections a' = SectionsList l))
  /\ (well_formed_sections s = false ->
      check_sections a
      = ([LogError
            "Invalid sections list, this should be a list of integers." []],
         SysExit 1)
      /\ result (validate_args w a) = SysExit 1).
Proof.
  intros Hs. split; intros Hwf.
  - apply well_formed_sections_numbers in Hwf. destruct Hwf as [l Hl].
    exists l.
    assert (HF : Forall2 (fun tok z => Py.int tok = Py.Val z) (Py.split s) l)
      by now apply comprehension_val.
    repeat split.
    + exact HF.
    + now apply comprehension_In.
    + now apply comprehension_In.
    + unfold check_sections. now rewrite Hs, Hl.
    + intros a' H. apply validate_args_returned in H.
      destruct H as (_ & Hn & _ & _ & H).
      apply check_credentials_returned in H. rewrite H.
      cbn [sections set_password set_username sanitized compiled
           set_skip_formats set_formats set_sections].
      rewrite Hs in Hn. congruence.
  - apply ill_formed_sections_numbers in Hwf. split.
    + unfold check_sections. now rewrite Hs, Hwf.
    + apply validate_args_stops. unfold sections_ok. rewrite Hs.
      destruct (well_formed_sections s) eqn:E; [|apply andb_false_r].
      apply well_formed_sections_numbers in E. destruct E as [l E].
      congruence.
Qed.

(** [--sections "1 3 8"] and [--sections "1 x 8"]. *)
Lemma sections_all_or_nothing_witness :
  (exists l,
      Forall2 (fun tok z => Py.int tok = Py.Val z) (Py.split "1 3 8") l
      /\ (forall z, In z l <->
                    exists tok,
                      In tok (Py.split "1 3 8") /\ Py.int tok = Py.Val z)
      /\ check_sections (set_sections (SectionsStr "1 3 8") alice)
         = ([],
            Returned
              (set_sections (SectionsList l)
                 (set_sections (SectionsStr "1 3 8") alice)))
      /\ (forall a',
             result
               (validate_args lab (set_sections (SectionsStr "1 3 8") alice))
             = Returned a' ->
             sections a' = SectionsList l))
  /\ result (validate_args lab (set_sections (SectionsStr "1 x 8") alice))
     = SysExit 1.
Proof.
  split.
  - apply (sections_all_or_nothing lab
             (set_sections (SectionsStr "1 3 8") alice) "1 3 8" eq_refl).
    reflexivity.
  - apply (sections_all_or_nothing lab
             (set_sections (SectionsStr "1 x 8") alice) "1 x 8" eq_refl).
    reflexivity.
Defined.

(** C4.  The code departs from the claim and from its own comment
    ([remove prefixing dot if there is one]): of the two leading dots of
    [--formats "..pdf"] it keeps none, where stripping at most one dot
    keeps one. *)
Lemma two_dots_both_removed :
  (exists a',
      validate_args lab (set_formats (FormatsStr "..pdf") alice)
      = ([], Returned a')
      /\ formats a' = FormatsList ["pdf"])
  /\ map strip_one_dot (Py.split "..pdf") = [".pdf"].
Proof.
  split.
  - eexists. split; reflexivity.
  - reflexivity.
Qed.

(** C8, as stated, fails: the namespace that validation returned is
    rejected when validated again, its sections being a list by then. *)
Lemma revalidation_fails :
  exists a',
    validate_args lab (set_sections (SectionsStr "1 3") alice)
    = ([], Returned a')
    /\ validate_args lab a'
       = ([LogError
             "Invalid sections list, this should be a list of integers." []],
          SysExit 1).
Proof. eexists. split; reflexivity. Qed.

(** C8, amended.  Two runs that return and were given the same sections,
    formats and skip-formats strings return the same three lists, whatever
    the machine and the other options.  Validating again what a run
    returned always ends with status 1 on the sections check, for
    [sections] is no longer a string. *)
Theorem scope_filter_compiled_once w1 w2 a1 a2 b1 b2 :
  sections a1 = sections a2 -> formats a1 = formats a2 ->
  skip_formats a1 = skip_formats a2 ->
  result (validate_args w1 a1) = Returned b1 ->
  result (validate_args w2 a2) = Returned b2 ->
  (sections b1 = sections b2 /\ formats b1 = formats b2
   /\ skip_formats b1 = skip_formats b2)
  /\ (forall w,
         validate_args w b1
         = ((parser_warning w b1
             ++ [LogError
                   "Invalid sections list, this should be a list of integers."
                   []])%list,
            SysExit 1)).
Proof.
  intros Es Ef Esf H1 H2.
  apply validate_args_returned in H1. destruct H1 as (Hp & _ & _ & _ & H1).
  apply validate_args_returned in H2. destruct H2 as (_ & _ & _ & _ & H2).
  apply check_credentials_returned in H1, H2.
  assert (S1 : sections b1 = SectionsList (numbers_of (sections a1)))
    by (rewrite H1; reflexivity).
  assert (F1 : formats b1 = FormatsList (extensions_of (formats a1)))
    by (rewrite H1; reflexivity).
  assert (K1 : skip_formats b1
               = FormatsList (extensions_of (skip_formats a1)))
    by (rewrite H1; reflexivity).
  assert (S2 : sections b2 = SectionsList (numbers_of (sections a2)))
    by (rewrite H2; reflexivity).
  assert (F2 : formats b2 = FormatsList (extensions_of (formats a2)))
    by (rewrite H2; reflexivity).
  assert (K2 : skip_formats b2
               = FormatsList (extensions_of (skip_formats a2)))
    by (rewrite H2; reflexivity).
  assert (P1 : parser b1 = parser a1) by (rewrite H1; reflexivity).
  split.
  - rewrite S1, F1, K1, S2, F2, K2, Es, Ef, Esf. repeat split.
  - intros w. rewrite validate_args_eq.
    unfold parser_known in *. rewrite P1, Hp, S1. reflexivity.
Qed.

(** Twice [--sections "1 3" -f ".mp4"], once with a password and once with
    a cookies file, and the first result validated again. *)
Lemma scope_filter_compiled_once_witness :
  (sections
     (sanitized
        (set_formats (FormatsStr ".mp4")
           (set_sections (SectionsStr "1 3") alice)))
   = SectionsList [1; 3]
   /\ formats
        (sanitized
           (set_formats (FormatsStr ".mp4")
              (set_sections (SectionsStr "1 3") alice)))
      = FormatsList ["mp4"]
   /\ skip_formats
        (sanitized
           (set_formats (FormatsStr ".mp4")
              (set_sections (SectionsStr "1 3") alice)))
      = FormatsList [])
  /\ forall w,
      result
        (validate_args w
           (sanitized
              (set_formats (FormatsStr ".mp4")
                 (set_sections (SectionsStr "1 3") alice))))
      = SysExit 1.
Proof.
  assert (H1 : result
                 (validate_args lab
                    (set_formats (FormatsStr ".mp4")
                       (set_sections (SectionsStr "1 3") alice)))
               = Returned
                   (sanitized
                      (set_formats (FormatsStr ".mp4")
                         (set_sections (SectionsStr "1 3") alice))))
    by (vm_compute; reflexivity).
  assert (H2 : result
                 (validate_args lab
                    (set_cookies (Some "cookies.txt")
                       (set_formats (FormatsStr ".mp4")
                          (set_sections (SectionsStr "1 3") default_args))))
               = Returned
                   (sanitized
                      (set_cookies (Some "cookies.txt")
                         (set_formats (FormatsStr ".mp4")
                            (set_sections (SectionsStr "1 3")
                               default_args)))))
    by (vm_compute; reflexivity).
  destruct (scope_filter_compiled_once lab lab
              (set_formats (FormatsStr ".mp4")
                 (set_sections (SectionsStr "1 3") alice))
              (set_cookies (Some "cookies.txt")
                 (set_formats (FormatsStr ".mp4")
                    (set_sections (SectionsStr "1 3") default_args)))
              _ _ eq_refl eq_refl eq_refl H1 H2)
    as [Hsame Hagain].
  split.
  - vm_compute. repeat split.
  - intros w. rewrite Hagain. reflexivity.
Defined.

(** ** Every way through [validate_args] *)

(** The eight ways through the credentials step. *)
Lemma check_credentials_cases w a (P : run Namespace -> Prop) :
  (forall file,
      cookies a = Some file -> Py.truthy file = true ->
      path_exists w file = true ->
      P ([PathExists file], Returned a)) ->
  (forall file,
      cookies a = Some file -> Py.truthy file = true ->
      path_exists w file = false ->
      P ([PathExists file; cookies_error file], SysExit 1)) ->
  (forall user pass,
      Py.truthy_opt (cookies a) = false -> netrc_truthy (netrc a) = true ->
      netrc_credentials w (netrc_path (netrc a)) = Some (user, pass) ->
      P ([NetrcLookup (netrc_path (netrc a));
          LogInfo "Credentials found in .netrc file" []],
         Returned (set_password (Some pass) (set_username (Some user) a)))) ->
  (Py.truthy_opt (cookies a) = false -> netrc_truthy (netrc a) = true ->
   netrc_credentials w (netrc_path (netrc a)) = None ->
   P ([NetrcLookup (netrc_path (netrc a));
       LogError "No credentials found in .netrc file" []],
      SysExit 1)) ->
  (Py.truthy_opt (cookies a) = false -> netrc_truthy (netrc a) = false ->
   Py.truthy_opt (username a) = false ->
   P ([username_error], SysExit 1)) ->
  (forall typed,
      Py.truthy_opt (cookies a) = false -> netrc_truthy (netrc a) = false ->
      Py.truthy_opt (username a) = true ->
      Py.truthy_opt (password a) = false ->
      getpass w ("Coursera password for " ++ format_opt (username a) ++ ": ")
      = Py.Val typed ->
      P ([GetPass
            ("Coursera password for " ++ format_opt (username a) ++ ": ")],
         Returned (set_password (Some typed) a))) ->
  (forall e,
      Py.truthy_opt (cookies a) = false -> netrc_truthy (netrc a) = false ->
      Py.truthy_opt (username a) = true ->
      Py.truthy_opt (password a) = false ->
      getpass w ("Coursera password for " ++ format_opt (username a) ++ ": ")
      = Py.Raise e ->
      P ([GetPass
            ("Coursera password for " ++ format_opt (username a) ++ ": ")],
         Uncaught e)) ->
  (Py.truthy_opt (cookies a) = false -> netrc_truthy (netrc a) = false ->
   Py.truthy_opt (username a) = true -> Py.truthy_opt (password a) = true ->
   P ([], Returned a)) ->
  P (check_credentials w a).
Proof.
  intros Hfound Hmissing Hentry Hnone Huser Hask Hraise Hgiven.
  assert (Hrest : Py.truthy_opt (cookies a) = false ->
                  P (if netrc_truthy (netrc a) then with_netrc w a
                     else with_username w a)).
  { intros Hc. destruct (netrc_truthy (netrc a)) eqn:En.
    - rewrite with_netrc_eq. cbv zeta.
      fold (netrc_path (netrc a)).
      destruct (netrc_credentials w (netrc_path (netrc a)))
        as [[user pass]|] eqn:Ecred.
      + now apply Hentry.
      + now apply Hnone.
    - rewrite with_username_eq.
      destruct (Py.truthy_opt (username a)) eqn:Eu; [|now apply Huser].
      destruct (Py.truthy_opt (password a)) eqn:Ep.
      + now apply Hgiven.
      + cbv zeta. unfold prompted.
        destruct (getpass w _) as [typed|e] eqn:Eg.
        * now apply Hask.
        * now apply Hraise. }
  destruct (Py.truthy_opt (cookies a)) eqn:Ec.
  - unfold Py.truthy_opt in Ec. destruct (cookies a) as [file|] eqn:Ef;
      [|discriminate].
    rewrite (check_credentials_cookies w a file Ef Ec).
    destruct (path_exists w file) eqn:Ex.
    + now apply Hfound.
    + now apply Hmissing.
  - rewrite (check_credentials_no_cookies w a Ec). now apply Hrest.
Qed.

(** The four ways through [validate_args]. *)
Lemma validate_args_cases w a (P : run Namespace -> Prop) :
  (parser_known a = false ->
   P ((parser_warning w a ++ [parser_error a])%list, SysExit 1)) ->
  (parser_known a = true -> sections_ok a = false ->
   P ((parser_warning w a ++ [sections_error])%list, SysExit 1)) ->
  (forall e, parser_known a = true -> sections_ok a = true -> raw a = false ->
             P (parser_warning w a, Uncaught e)) ->
  (parser_known a = true -> sections_ok a = true -> raw a = true ->
   P ((parser_warning w a ++ trace (check_credentials w (sanitized a)))%list,
      result (check_credentials w (sanitized a)))) ->
  P (validate_args w a).
Proof.
  intros Hparser Hsections Hraise Hreach.
  destruct (parser_known a) eqn:Ep.
  2:{ rewrite validate_args_eq, Ep. now apply Hparser. }
  destruct (sections_ok a) eqn:Es.
  2:{ rewrite validate_args_eq, Ep.
      destruct (sections_not_ok_numbers a Es) as [e ->]. now apply Hsections. }
  destruct (raw a) eqn:Er.
  - rewrite (validate_args_reaches w a Er Ep Es). now apply Hreach.
  - rewrite validate_args_eq, Ep, (sections_ok_numbers a Es).
    unfold raw, sections_ok in *.
    destruct (sections a) as [s|]; [|discriminate].
    destruct (formats a) as [f|]; cbn [extensions].
    + destruct (skip_formats a) as [sf|]; [discriminate|].
      cbn [extensions]. now apply Hraise.
    + now apply Hraise.
Qed.

Lemma parser_warning_no_error w a :
  existsb is_error (parser_warning w a) = false.
Proof. unfold parser_warning. now destruct (_ && _). Qed.

Lemma parser_warning_inside w a :
  filter touches_environment (parser_warning w a) = [].
Proof. unfold parser_warning. now destruct (_ && _). Qed.

Lemma parser_warning_no_getpass w a :
  existsb is_getpass (parser_warning w a) = false.
Proof. unfold parser_warning. now destruct (_ && _). Qed.

(** On arguments from [parse_args] a validation returns, exits with status
    1, or is ended by the exception of the prompt. *)
Lemma validate_args_ends w a :
  raw a = true ->
  (exists a', result (validate_args w a) = Returned a')
  \/ result (validate_args w a) = SysExit 1
  \/ exists e,
      result (validate_args w a) = Uncaught e
      /\ getpass w ("Coursera password for " ++ format_opt (username a) ++ ": ")
         = Py.Raise e
      /\ exists t,
          trace (validate_args w a)
          = (t ++ [GetPass ("Coursera password for "
                            ++ format_opt (username a) ++ ": ")])%list.
Proof.
  intros Hraw.
  apply (validate_args_cases w a
           (fun r =>
              (exists a', result r = Returned a')
              \/ result r = SysExit 1
              \/ exists e,
                  result r = Uncaught e
                  /\ getpass w ("Coursera password for "
                                ++ format_opt (username a) ++ ": ")
                     = Py.Raise e
                  /\ exists t,
                      trace r
                      = (t ++ [GetPass ("Coursera password for "
                                        ++ format_opt (username a)
                                        ++ ": ")])%list)).
  - intros _. right. now left.
  - intros _ _. right. now left.
  - intros e _ _ H. congruence.
  - intros _ _ _. cbn [result trace fst snd].
    apply (check_credentials_cases w (sanitized a)
             (fun c =>
                (exists a', result c = Returned a')
                \/ result c = SysExit 1
                \/ exists e,
                    result c = Uncaught e
                    /\ getpass w ("Coursera password for "
                                  ++ format_opt (username a) ++ ": ")
                       = Py.Raise e
                    /\ exists t,
                        (parser_warning w a ++ trace c)%list
                        = (t ++ [GetPass ("Coursera password for "
                                          ++ format_opt (username a)
                                          ++ ": ")])%list));
      intros; cbn [result trace fst snd];
      try solve [right; now left | left; eexists; reflexivity].
    right. right. exists e. split; [reflexivity|].
    split; [assumption|]. now exists (parser_warning w a).
Qed.

(** X1.  On arguments as [parse_args] builds them, [validate_args] raises
    nothing of its own: it returns, or it exits, and then with status 1, or
    it is ended by the exception that [getpass] raised at the prompt, the
    prompt being the last thing it did. *)
Theorem validate_args_returns_or_exits w a :
  raw a = true ->
  (exists a', result (validate_args w a) = Returned a')
  \/ result (validate_args w a) = SysExit 1
  \/ exists e,
      result (validate_args w a) = Uncaught e
      /\ getpass w ("Coursera password for " ++ format_opt (username a) ++ ": ")
         = Py.Raise e
      /\ exists t,
          trace (validate_args w a)
          = (t ++ [GetPass ("Coursera password for "
                            ++ format_opt (username a) ++ ": ")])%list.
Proof.
  intros Hraw.
  destruct (validate_args_ends w a Hraw) as [H|[H|H]].
  - now left.
  - right. now left.
  - right. now right.
Qed.

Lemma validate_args_returns_or_exits_witness :
  (exists a', result (validate_args lab alice) = Returned a')
  \/ result (validate_args lab alice) = SysExit 1
  \/ exists e,
      result (validate_args lab alice) = Uncaught e
      /\ getpass lab
           ("Coursera password for " ++ format_opt (username alice) ++ ": ")
         = Py.Raise e
      /\ exists t,
          trace (validate_args lab alice)
          = (t ++ [GetPass ("Coursera password for "
                            ++ format_opt (username alice) ++ ": ")])%list.
Proof. apply (validate_args_returns_or_exits lab alice). reflexivity. Defined.

(** X2.  A run logs an error exactly when it exits: the exit status is
    then 1, and the error is the last thing the run does and the only error
    it logs.  A run that returns, or that an exception ends, logs none. *)
Theorem error_logged_iff_exit w a :
  match result (validate_args w a) with
  | SysExit code =>
      code = 1
      /\ exists t msg params,
          trace (validate_args w a) = (t ++ [LogError msg params])%list
          /\ existsb is_error t = false
  | _ => existsb is_error (trace (validate_args w a)) = false
  end.
Proof.
  apply (validate_args_cases w a
           (fun r => match result r with
                     | SysExit code =>
                         code = 1
                         /\ exists t msg params,
                             trace r = (t ++ [LogError msg params])%list
                             /\ existsb is_error t = false
                     | _ => existsb is_error (trace r) = false
                     end)).
  - intros _. cbn [result trace fst snd]. split; [reflexivity|].
    eexists _, _, _. split; [reflexivity|apply parser_warning_no_error].
  - intros _ _. cbn [result trace fst snd]. split; [reflexivity|].
    eexists _, _, _. split; [reflexivity|apply parser_warning_no_error].
  - intros e _ _ _. cbn [result trace fst snd]. apply parser_warning_no_error.
  - intros _ _ _.
    apply (check_credentials_cases w (sanitized a)
             (fun c => match result
                               ((parser_warning w a ++ trace c)%list, result c)
                       with
                       | SysExit code =>
                           code = 1
                           /\ exists t msg params,
                               trace ((parser_warning w a ++ trace c)%list,
                                      result c)
                               = (t ++ [LogError msg params])%list
                               /\ existsb is_error t = false
                       | _ =>
                           existsb is_error
                             (trace ((parser_warning w a ++ trace c)%list,
                                     result c)) = false
                       end));
      intros; cbn [result trace fst snd];
      try (rewrite existsb_app, parser_warning_no_error; reflexivity).
    + split; [reflexivity|].
      exists (parser_warning w a ++ [PathExists file])%list.
      eexists _, _. rewrite <- app_assoc. split; [reflexivity|].
      now rewrite existsb_app, parser_warning_no_error.
    + split; [reflexivity|].
      exists (parser_warning w a
              ++ [NetrcLookup (netrc_path (netrc (sanitized a)))])%list.
      eexists _, _. rewrite <- app_assoc. split; [reflexivity|].
      now rewrite existsb_app, parser_warning_no_error.
    + split; [reflexivity|].
      exists (parser_warning w a). eexists _, _.
      split; [reflexivity|apply parser_warning_no_error].
Qed.

(** X3.  A run reaches outside for the credentials at most once: of the
    test of the cookies file, the netrc lookup and the password prompt, it
    makes at most one, and that one once. *)
Theorem one_credential_source w a :
  (List.length (filter touches_environment (trace (validate_args w a))) <= 1)%nat.
Proof.
  apply (validate_args_cases w a
           (fun r => (List.length (filter touches_environment (trace r)) <= 1)%nat)).
  - intros _. cbn [trace fst]. rewrite filter_app, parser_warning_inside.
    cbn. lia.
  - intros _ _. cbn [trace fst]. rewrite filter_app, parser_warning_inside.
    cbn. lia.
  - intros e _ _ _. cbn [trace fst]. rewrite parser_warning_inside. cbn. lia.
  - intros _ _ _. cbn [trace fst]. rewrite filter_app, parser_warning_inside.
    cbn [app].
    apply (check_credentials_cases w (sanitized a)
             (fun c => (List.length (filter touches_environment (trace c)) <= 1)%nat));
      intros; cbn; lia.
Qed.

(** X4.  Fail fast: when the parser is unknown or the sections are no list
    of integers, the run stops there with status 1, the parser being
    judged first, and nothing outside the program is touched: no file is
    tested, no netrc read, nothing asked. *)
Theorem invalid_arguments_stop_early w a :
  parser_known a && sections_ok a = false ->
  validate_args w a
  = ((parser_warning w a
      ++ [if parser_known a then
            LogError
              "Invalid sections list, this should be a list of integers." []
          else
            LogError
              "Invalid parser: '%s', choose from 'html5lib', 'html.parser', 'lxml'"
              [parser a]])%list,
     SysExit 1)
  /\ filter touches_environment (trace (validate_args w a)) = [].
Proof.
  intros H.
  assert (E : validate_args w a
              = ((parser_warning w a
                  ++ [if parser_known a then sections_error
                      else parser_error a])%list,
                 SysExit 1)).
  { rewrite validate_args_eq. destruct (parser_known a); [|reflexivity].
    cbn [andb] in H. now destruct (sections_not_ok_numbers a H) as [e ->]. }
  split; [exact E|].
  rewrite E. cbn [trace fst]. rewrite filter_app, parser_warning_inside.
  now destruct (parser_known a).
Qed.

(** [--parser bs4 --sections "one" --cookies missing.txt]: the parser is
    reported, the file is not looked for. *)
Lemma invalid_arguments_stop_early_witness :
  validate_args lab
    (set_parser "bs4"
       (set_sections (SectionsStr "one")
          (set_cookies (Some "missing.txt") default_args)))
  = ([LogError
        "Invalid parser: '%s', choose from 'html5lib', 'html.parser', 'lxml'"
        ["bs4"]],
     SysExit 1).
Proof.
  apply (invalid_arguments_stop_early lab
           (set_parser "bs4"
              (set_sections (SectionsStr "one")
                 (set_cookies (Some "missing.txt") default_args)))).
  reflexivity.
Defined.

(** X5.  Once netrc mode is selected (no cookies file, [--netrc] given) the
    [--username] and [--password] of the command line play no part: the run
    is the same whatever they are. *)
Theorem netrc_overrides_flags w a user pass :
  Py.truthy_opt (cookies a) = false -> netrc_truthy (netrc a) = true ->
  validate_args w (set_password pass (set_username user a))
  = validate_args w a.
Proof.
  intros Hc Hn. rewrite !validate_args_eq.
  unfold parser_known, parser_warning, parser_error.
  cbn [parser sections formats skip_formats set_password set_username].
  destruct (existsb (String.eqb (parser a)) known_parsers); [|reflexivity].
  destruct (sections_numbers (sections a)) as [l|e]; [|reflexivity].
  destruct (extensions (formats a)) as [f|e]; [|reflexivity].
  destruct (extensions (skip_formats a)) as [sf|e]; [|reflexivity].
  rewrite !check_credentials_no_cookies by exact Hc.
  change (netrc (compiled l f sf (set_password pass (set_username user a))))
    with (netrc a).
  change (netrc (compiled l f sf a)) with (netrc a).
  rewrite Hn, !with_netrc_eq. cbv zeta.
  change (netrc (compiled l f sf (set_password pass (set_username user a))))
    with (netrc a).
  change (netrc (compiled l f sf a)) with (netrc a).
  destruct (netrc_credentials w _) as [[u p]|]; reflexivity.
Qed.

(** [--netrc -u alice -p secret] against [--netrc] alone. *)
Lemma netrc_overrides_flags_witness :
  validate_args lab (opt_netrc None alice)
  = validate_args lab (opt_netrc None default_args).
Proof.
  apply (netrc_overrides_flags lab (opt_netrc None default_args)
           (Some "alice") (Some "secret")); reflexivity.
Defined.

(** X6.  In netrc mode, once parser and sections are accepted, the netrc
    reader decides: it is asked for the file given, or for no file when
    [--netrc] was bare; an entry becomes user name and password of the
    namespace returned, no entry ends the run with status 1 and the error
    [No credentials found in .netrc file]. *)
Theorem netrc_decides w a :
  raw a = true -> parser_known a = true -> sections_ok a = true ->
  Py.truthy_opt (cookies a) = false -> netrc_truthy (netrc a) = true ->
  validate_args w a
  = match netrc_credentials w (netrc_path (netrc a)) with
    | Some (user, pass) =>
        ((parser_warning w a
          ++ [NetrcLookup (netrc_path (netrc a));
              LogInfo "Credentials found in .netrc file" []])%list,
         Returned
           (set_password (Some pass)
              (set_username (Some user) (sanitized a))))
    | None =>
        ((parser_warning w a
          ++ [NetrcLookup (netrc_path (netrc a));
              LogError "No credentials found in .netrc file" []])%list,
         SysExit 1)
    end.
Proof.
  intros Hraw Hp Hs Hc Hn.
  rewrite (validate_args_reaches w a Hraw Hp Hs).
  rewrite check_credentials_no_cookies by exact Hc.
  change (netrc (sanitized a)) with (netrc a). rewrite Hn, with_netrc_eq.
  cbv zeta. change (netrc (sanitized a)) with (netrc a).
  fold (netrc_path (netrc a)).
  destruct (netrc_credentials w (netrc_path (netrc a))) as [[u p]|];
    reflexivity.
Qed.

(** [--netrc my.netrc] on a machine whose reader finds bob's entry. *)
Lemma netrc_decides_witness :
  validate_args lab (opt_netrc (Some "my.netrc") default_args)
  = ([NetrcLookup (Some "my.netrc");
      LogInfo "Credentials found in .netrc file" []],
     Returned
       (set_password (Some "hunter2")
          (set_username (Some "bob")
             (sanitized (opt_netrc (Some "my.netrc") default_args))))).
Proof.
  apply (netrc_decides lab (opt_netrc (Some "my.netrc") default_args));
    reflexivity.
Defined.

(** X7.  The password is asked for exactly when everything else is in
    order and nothing else provides it: parser and sections accepted, no
    cookies file, no netrc, a user name and no password.  The prompt then
    names that user. *)
Theorem prompt_iff_needed w a :
  raw a = true ->
  existsb is_getpass (trace (validate_args w a))
  = parser_known a && sections_ok a
    && negb (Py.truthy_opt (cookies a)) && negb (netrc_truthy (netrc a))
    && Py.truthy_opt (username a) && negb (Py.truthy_opt (password a))
  /\ forall prompt,
      In (GetPass prompt) (trace (validate_args w a)) ->
      prompt = "Coursera password for " ++ format_opt (username a) ++ ": ".
Proof.
  intros Hraw.
  apply (validate_args_cases w a
           (fun r =>
              existsb is_getpass (trace r)
              = parser_known a && sections_ok a
                && negb (Py.truthy_opt (cookies a))
                && negb (netrc_truthy (netrc a))
                && Py.truthy_opt (username a)
                && negb (Py.truthy_opt (password a))
              /\ forall prompt,
                  In (GetPass prompt) (trace r) ->
                  prompt
                  = "Coursera password for " ++ format_opt (username a) ++ ": ")).
  - intros ->. cbn [trace fst andb]. split.
    + now rewrite existsb_app, parser_warning_no_getpass.
    + intros prompt Hin. apply in_app_or in Hin.
      unfold parser_warning, parser_error in Hin.
      destruct (_ && _) in Hin; cbn in Hin;
        repeat destruct Hin as [Hin|Hin]; try discriminate; tauto.
  - intros -> ->. cbn [trace fst andb]. split.
    + now rewrite existsb_app, parser_warning_no_getpass.
    + intros prompt Hin. apply in_app_or in Hin.
      unfold parser_warning, sections_error in Hin.
      destruct (_ && _) in Hin; cbn in Hin;
        repeat destruct Hin as [Hin|Hin]; try discriminate; tauto.
  - intros e _ _ H. congruence.
  - intros -> -> _. cbn [trace fst andb].
    change (cookies a) with (cookies (sanitized a)).
    change (netrc a) with (netrc (sanitized a)).
    change (username a) with (username (sanitized a)).
    change (password a) with (password (sanitized a)).
    apply (check_credentials_cases w (sanitized a)
             (fun c =>
                existsb is_getpass (parser_warning w a ++ trace c)
                = negb (Py.truthy_opt (cookies (sanitized a)))
                  && negb (netrc_truthy (netrc (sanitized a)))
                  && Py.truthy_opt (username (sanitized a))
                  && negb (Py.truthy_opt (password (sanitized a)))
                /\ forall prompt,
                    In (GetPass prompt) (parser_warning w a ++ trace c)%list ->
                    prompt
                    = "Coursera password for "
                      ++ format_opt (username (sanitized a)) ++ ": "));
      intros; rewrite existsb_app, parser_warning_no_getpass;
      cbn [trace fst existsb is_getpass orb];
      (split;
       [ repeat match goal with
                | H : cookies _ = Some _ |- _ =>
                    rewrite H; cbn [Py.truthy_opt]
                | H : _ = true |- _ => rewrite H
                | H : _ = false |- _ => rewrite H
                end; reflexivity
       | intros prompt Hin; apply in_app_or in Hin;
         unfold parser_warning, cookies_error, username_error in Hin;
         destruct (_ && _) in Hin; cbn in Hin;
         repeat destruct Hin as [Hin|Hin]; try discriminate; try tauto;
         injection Hin as <-; reflexivity ]).
Qed.

(** [coursera-dl -u alice]: the password is asked for, under alice's
    name. *)
Lemma prompt_iff_needed_witness :
  existsb is_getpass
    (trace (validate_args lab (set_username (Some "alice") default_args)))
  = true.
Proof.
  destruct (prompt_iff_needed lab (set_username (Some "alice") default_args)
              eq_refl) as [H _].
  rewrite H. reflexivity.
Defined.

(** A namespace that validation returns has a known parser. *)
Lemma validated_parser w a a' :
  result (validate_args w a) = Returned a' ->
  parser_known a' = true /\ parser a' = parser a.
Proof.
  intros H. apply validate_args_returned in H.
  destruct H as (Hp & _ & _ & _ & H).
  apply check_credentials_returned in H.
  assert (E : parser a' = parser a) by (rewrite H; reflexivity).
  split; [|exact E]. unfold parser_known in *. now rewrite E.
Qed.

(** X8.  What validation guarantees of the namespace it returns: the parser
    is a known one, and the credentials are settled in one of three ways:
    a cookies file that exists, user name and password untouched; or the
    user name and password of the netrc entry; or the non-empty user name
    of the command line with a password, the one given or else whatever was
    typed at the prompt, be it empty. *)
Theorem validated_namespace w a a' :
  result (validate_args w a) = Returned a' ->
  parser_known a' = true
  /\ ((exists file,
          cookies a' = Some file /\ Py.truthy file = true
          /\ path_exists w file = true
          /\ username a' = username a /\ password a' = password a)
      \/ (Py.truthy_opt (cookies a') = false
          /\ netrc_truthy (netrc a') = true
          /\ exists user pass,
              netrc_credentials w (netrc_path (netrc a')) = Some (user, pass)
              /\ username a' = Some user /\ password a' = Some pass)
      \/ (Py.truthy_opt (cookies a') = false
          /\ netrc_truthy (netrc a') = false
          /\ Py.truthy_opt (username a') = true
          /\ username a' = username a
          /\ (password a' = password a /\ Py.truthy_opt (password a) = true
              \/ Py.truthy_opt (password a) = false
                 /\ exists typed,
                     getpass w ("Coursera password for "
                                ++ format_opt (username a) ++ ": ")
                     = Py.Val typed
                     /\ password a' = Some typed))).
Proof.
  intros H. apply validate_args_returned in H.
  destruct H as (Hp & _ & _ & _ & H).
  pose proof (check_credentials_returned w _ _ H) as Ha'.
  split.
  { unfold parser_known in *. rewrite Ha'. exact Hp. }
  revert H.
  apply (check_credentials_cases w (sanitized a)
           (fun c =>
              result c = Returned a' ->
              (exists file,
                  cookies a' = Some file /\ Py.truthy file = true
                  /\ path_exists w file = true
                  /\ username a' = username a /\ password a' = password a)
              \/ (Py.truthy_opt (cookies a') = false
                  /\ netrc_truthy (netrc a') = true
                  /\ exists user pass,
                      netrc_credentials w (netrc_path (netrc a'))
                      = Some (user, pass)
                      /\ username a' = Some user /\ password a' = Some pass)
              \/ (Py.truthy_opt (cookies a') = false
                  /\ netrc_truthy (netrc a') = false
                  /\ Py.truthy_opt (username a') = true
                  /\ username a' = username a
                  /\ (password a' = password a
                      /\ Py.truthy_opt (password a) = true
                      \/ Py.truthy_opt (password a) = false
                         /\ exists typed,
                             getpass w ("Coursera password for "
                                        ++ format_opt (username a) ++ ": ")
                             = Py.Val typed
                             /\ password a' = Some typed))));
    cbn [result snd]; intros; try discriminate;
    match goal with
    | H : Returned _ = Returned _ |- _ => injection H as <-
    end.
  - left. exists file. repeat split; assumption.
  - right. left. repeat split; try assumption.
    exists user, pass. repeat split. assumption.
  - right. right. repeat split; try assumption. right. split; [assumption|].
    exists typed. split; [assumption|reflexivity].
  - right. right. repeat split; try assumption. left. split; [reflexivity|].
    assumption.
Qed.

(** [coursera-dl -u alice]: alice, with the password typed. *)
Lemma validated_namespace_witness :
  parser_known (set_password (Some "typed") (sanitized alice)) = true
  /\ username (set_password (Some "typed") (sanitized alice)) = Some "alice".
Proof.
  destruct (validated_namespace lab (set_username (Some "alice") default_args)
              (set_password (Some "typed") (sanitized alice)) eq_refl)
    as [Hp _].
  split; [exact Hp|reflexivity].
Defined.

Lemma blank_free_lstrip_dot tok :
  blank_free tok = true -> blank_free (Py.lstrip_dot tok) = true.
Proof.
  induction tok as [|c tok IH]; [reflexivity|].
  intros H. pose proof H as H'. cbn in H'. apply andb_prop in H'.
  destruct H' as [_ Htok].
  destruct (Ascii.eqb_spec c ".") as [->|Hc]; [now apply IH|].
  replace (Py.lstrip_dot (String c tok)) with (String c tok); [exact H|].
  cbn. destruct c as [[] [] [] [] [] [] [] []]; try reflexivity.
  now contradiction Hc.
Qed.

Lemma lstrip_dot_empty tok :
  Py.lstrip_dot tok = EmptyString <-> exists n, tok = dots n.
Proof.
  split.
  - intros H. destruct (lstrip_dot_spec tok) as [n Hn]. exists n.
    rewrite H in Hn. rewrite Hn. clear. induction n; cbn; congruence.
  - intros [n ->]. induction n; [reflexivity|exact IHn].
Qed.

(** X10.  The extensions that validation stores: one per token of the
    string, none with a blank or a leading dot.  A token made of dots only
    is not dropped: it leaves an empty extension in the list, and these are
    the only empty ones. *)
Theorem extensions_are_clean s :
  List.length (extensions_of (FormatsStr s)) = List.length (Py.split s)
  /\ Forall (fun ext => blank_free ext = true
                        /\ forall rest, ext <> String "." rest)
       (extensions_of (FormatsStr s))
  /\ (In EmptyString (extensions_of (FormatsStr s)) <->
      exists n, In (dots (S n)) (Py.split s)).
Proof.
  unfold extensions_of. cbn [extensions].
  pose proof (split_tokens s) as Htok.
  split; [apply length_map|]. split.
  - apply Forall_map. revert Htok. apply Forall_impl.
    intros tok [_ Hb]. split.
    + now apply blank_free_lstrip_dot.
    + intros rest. apply lstrip_dot_no_dot.
  - rewrite in_map_iff. split.
    + intros [tok [Hstrip Hin]].
      apply lstrip_dot_empty in Hstrip. destruct Hstrip as [n ->].
      rewrite Forall_forall in Htok. destruct (Htok _ Hin) as [Hne _].
      destruct n as [|n]; [now contradiction Hne|]. now exists n.
    + intros [n Hin]. exists (dots (S n)). split; [|exact Hin].
      apply lstrip_dot_empty. now exists (S n).
Qed.

Lemma split_from_nil cur s :
  Py.split_from cur s = [] <-> cur = EmptyString /\ all_blank s = true.
Proof.
  revert cur. induction s as [|c rest IH]; intros cur; cbn.
  - destruct cur; split; try tauto; try discriminate.
    intros [H _]. discriminate.
  - destruct (Py.isspace c) eqn:Ec; cbn [andb].
    + destruct cur as [|d cur]; cbn.
      * rewrite IH. tauto.
      * split; [discriminate|]. intros [H _]. discriminate.
    + rewrite IH. split.
      * intros [H _]. destruct cur; discriminate.
      * intros [_ H]. discriminate.
Qed.

Lemma comprehension_nil {A B : Type} (f : A -> Py.res B) xs :
  Py.comprehension f xs = Py.Val [] <-> xs = [].
Proof.
  destruct xs as [|x xs]; cbn.
  - tauto.
  - destruct (f x); [destruct (Py.comprehension f xs)|];
      split; discriminate.
Qed.

(** X11.  Empty input: validation stores an empty list of section numbers
    exactly when the sections string holds nothing but blanks, the empty
    string included; likewise for the extensions. *)
Theorem blank_strings_give_empty_lists s :
  (sections_numbers (SectionsStr s) = Py.Val [] <-> all_blank s = true)
  /\ (extensions (FormatsStr s) = Py.Val [] <-> all_blank s = true).
Proof.
  assert (Hs : Py.split s = [] <-> all_blank s = true).
  { unfold Py.split. rewrite split_from_nil. tauto. }
  split.
  - cbn [sections_numbers]. now rewrite comprehension_nil.
  - cbn [extensions]. rewrite <- Hs. split.
    + intros H. injection H as H. now apply map_eq_nil in H.
    + now intros ->.
Qed.

(** ** The command line *)

Lemma take_action_continues version o ns :
  stops_parsing o = false ->
  exists ns',
    take_action version o ns = ([], Returned ns')
    /\ (raw ns = true -> raw ns' = true)
    /\ hooks ns' = (hooks ns ++ hooks_given [o])%list
    /\ debug ns' = debug ns || is_debug_option o
    /\ quiet ns' = quiet ns || is_quiet_option o.
Proof.
  intros Hgo.
  destruct o; cbn in Hgo; try discriminate;
    try (eexists; split; [reflexivity|];
         cbn; rewrite ?List.app_nil_r, ?orb_false_r, ?orb_true_r;
         repeat split; try reflexivity;
         unfold raw; cbn;
         destruct (sections ns), (formats ns), (skip_formats ns);
         intros; congruence).
  cbn [take_action]. destruct (Py.int number) as [n|e]; [|discriminate].
  eexists; split; [reflexivity|].
  cbn; rewrite ?List.app_nil_r, ?orb_false_r. repeat split. intros H; exact H.
Qed.

Lemma take_action_stops version o ns :
  stops_parsing o = true ->
  take_action version o ns = ([PrintHelp], SysExit 0)
  \/ take_action version o ns = ([PrintVersion version], SysExit 0)
  \/ (exists number,
         o = OptMaxFilenameLength number
         /\ take_action version o ns = ([InvalidInt number], SysExit 2))
  \/ exists message,
      o = OptRefused message
      /\ take_action version o ns = ([UsageError message], SysExit 2).
Proof.
  intros Hstop. destruct o; cbn in Hstop; try discriminate.
  - now left.
  - right. now left.
  - right. right. left. exists number. split; [reflexivity|].
    cbn [take_action]. now destruct (Py.int number).
  - right. right. right. now exists message.
Qed.

Lemma take_actions_continue version opts ns :
  existsb stops_parsing opts = false ->
  exists ns',
    take_actions version opts ns = ([], Returned ns')
    /\ (raw ns = true -> raw ns' = true)
    /\ hooks ns' = (hooks ns ++ hooks_given opts)%list
    /\ debug ns' = debug ns || existsb is_debug_option opts
    /\ quiet ns' = quiet ns || existsb is_quiet_option opts.
Proof.
  revert ns. induction opts as [|o opts IH]; intros ns Hgo.
  - exists ns. cbn. rewrite List.app_nil_r, !orb_false_r. repeat split; auto.
  - cbn [existsb] in Hgo. apply orb_false_elim in Hgo.
    destruct Hgo as [Ho Hopts].
    destruct (take_action_continues version o ns Ho)
      as (ns1 & E1 & Hraw1 & Hhooks1 & Hdebug1 & Hquiet1).
    destruct (IH ns1 Hopts) as (ns2 & E2 & Hraw2 & Hhooks2 & Hdebug2 & Hquiet2).
    exists ns2. cbn [take_actions]. rewrite E1. cbn [pbind]. rewrite E2.
    cbn [app]. split; [reflexivity|]. split; [auto|]. split.
    + rewrite Hhooks2, Hhooks1. unfold hooks_given. cbn [flat_map].
      now rewrite <- app_assoc, List.app_nil_r.
    + cbn [existsb]. rewrite Hdebug2, Hdebug1, Hquiet2, Hquiet1.
      now rewrite !orb_assoc.
Qed.

Lemma take_actions_stop version pre o post ns :
  existsb stops_parsing pre = false -> stops_parsing o = true ->
  take_actions version (pre ++ o :: post) ns = take_action version o ns
  /\ exists ns', take_action version o ns = take_action version o ns'
                 /\ take_actions version pre ns = ([], Returned ns').
Proof.
  revert ns. induction pre as [|p pre IH]; intros ns Hpre Ho.
  - cbn [app take_actions].
    split.
    + destruct (take_action_stops version o ns Ho)
        as [E|[E|[(n & _ & E)|(m & _ & E)]]];
        now rewrite E.
    + now exists ns.
  - cbn [existsb] in Hpre. apply orb_false_elim in Hpre.
    destruct Hpre as [Hp Hpre].
    destruct (take_action_continues version p ns Hp) as (ns1 & E1 & _).
    destruct (IH ns1 Hpre Ho) as [E (ns' & Esame & Epre)].
    cbn [app take_actions]. rewrite E1. cbn [pbind]. rewrite E, Epre.
    assert (Eany : take_action version o ns = take_action version o ns1).
    { destruct o; cbn in Ho; try discriminate; try reflexivity.
      cbn [take_action]. now destruct (Py.int number). }
    split.
    + rewrite Eany.
      destruct (take_action_stops version o ns1 Ho)
        as [E'|[E'|[(n & _ & E')|(m & _ & E')]]];
        now rewrite E'.
    + exists ns'. split; [congruence|reflexivity].
Qed.



Lemma parse_args_parsed version cmd :
  existsb stops_parsing (options cmd) = false ->
  exists a,
    parse_args version cmd = ([], Returned a)
    /\ raw a = true
    /\ course a = courses cmd
    /\ hooks a = hooks_given (options cmd)
    /\ debug a = existsb is_debug_option (options cmd)
    /\ quiet a = existsb is_quiet_option (options cmd).
Proof.
  intros Hgo.
  destruct (take_actions_continue version (options cmd) default_args Hgo)
    as (ns & E & Hraw & Hhooks & Hdebug & Hquiet).
  exists (set_course (courses cmd) ns). unfold parse_args. rewrite E.
  cbn [pbind pret app]. split; [reflexivity|].
  split; [exact (Hraw eq_refl)|]. split; [reflexivity|].
  split; [exact Hhooks|]. split; [exact Hdebug|exact Hquiet].
Qed.

(** X13.  When no step stops the parsing, [parse_args] returns, silently,
    a namespace whose sections, formats and skip-formats are still strings,
    whose courses are the positional arguments, whose hooks are all the
    hooks given, in the order given, and where [debug] and [quiet] are set
    exactly when the option occurs. *)
Theorem parse_args_returns version cmd :
  existsb stops_parsing (options cmd) = false ->
  exists a,
    parse_args version cmd = ([], Returned a)
    /\ raw a = true
    /\ course a = courses cmd
    /\ hooks a = hooks_given (options cmd)
    /\ debug a = existsb is_debug_option (options cmd)
    /\ quiet a = existsb is_quiet_option (options cmd).
Proof.
  intros Hgo.
  destruct (take_actions_continue version (options cmd) default_args Hgo)
    as (ns & E & Hraw & Hhooks & Hdebug & Hquiet).
  exists (set_course (courses cmd) ns). unfold parse_args. rewrite E.
  cbn [pbind pret app]. split; [reflexivity|].
  split; [exact (Hraw eq_refl)|]. split; [reflexivity|].
  split; [exact Hhooks|]. split; [exact Hdebug|exact Hquiet].
Qed.

Lemma parse_args_returns_witness :
  exists a,
    parse_args "0.0.1" quiet_alice = ([], Returned a)
    /\ raw a = true
    /\ course a = ["ml-001"]
    /\ hooks a = ["a"; "b"]
    /\ debug a = false
    /\ quiet a = true.
Proof. apply (parse_args_returns "0.0.1" quiet_alice). reflexivity. Defined.

(** ** The program *)

Lemma first_stop opts :
  existsb stops_parsing opts = true ->
  exists pre o post,
    opts = (pre ++ o :: post)%list
    /\ existsb stops_parsing pre = false /\ stops_parsing o = true.
Proof.
  induction opts as [|o opts IH]; [discriminate|].
  cbn [existsb]. destruct (stops_parsing o) eqn:Eo.
  - intros _. now exists [], o, opts.
  - cbn [orb]. intros H. destruct (IH H) as (pre & o' & post & -> & Hpre & Ho').
    exists (o :: pre), o', post. cbn [existsb app]. rewrite Eo.
    now repeat split.
Qed.

(** A command line with a step that stops the parsing: [main] is what
    [parse_args] is. *)
Lemma main_stopped w version cmd :
  existsb stops_parsing (options cmd) = true ->
  main w version cmd = ([PrintHelp], SysExit 0)
  \/ main w version cmd = ([PrintVersion version], SysExit 0)
  \/ (exists number, main w version cmd = ([InvalidInt number], SysExit 2))
  \/ exists message, main w version cmd = ([UsageError message], SysExit 2).
Proof.
  intros H. destruct (first_stop _ H) as (pre & o & post & E & Hpre & Ho).
  unfold main, parse_args. rewrite E.
  destruct (take_actions_stop version pre o post default_args Hpre Ho)
    as [-> _].
  destruct (take_action_stops version o default_args Ho)
    as [->|[->|[(number & _ & ->)|(message & _ & ->)]]].
  - now left.
  - right. now left.
  - right. right. left. now exists number.
  - right. right. right. now exists message.
Qed.

(** A command line that is parsed to the end: [main] configures the
    logging, validates, and announces itself if the validation returned. *)
Lemma main_parsed w version cmd a :
  parse_args version cmd = ([], Returned a) ->
  main w version cmd
  = ((logging_setup (debug a) (quiet a)
      :: map Event (trace (validate_args w a))
      ++ match result (validate_args w a) with
         | Returned a' => [announcement version (parser a')]
         | _ => []
         end)%list,
     map_outcome (fun _ => tt) (result (validate_args w a))).
Proof.
  intros E. unfold main. rewrite E. cbn [pbind app].
  unfold logging_setup, logging_basicConfig, lift, announcement, trace, result.
  destruct (validate_args w a) as [t o].
  destruct (debug a); [|destruct (quiet a)];
    destruct o; cbn; rewrite ?List.app_nil_r; reflexivity.
Qed.

(** X14.  The exit status tells the stage.  With a step that stops the
    parsing [main] exits with status 0 or 2 before the logging is
    configured and before anything is validated.  Otherwise it configures
    the logging first and once, and then returns, or exits with status 1,
    or is ended by the exception that [getpass] raised at the prompt: no
    other exception leaves [main]. *)
Theorem exit_status_tells_the_stage w version cmd :
  if existsb stops_parsing (options cmd) then
    (ending (main w version cmd) = SysExit 0
     \/ ending (main w version cmd) = SysExit 2)
    /\ existsb after_parsing (activities (main w version cmd)) = false
  else
    (exists level format t,
        activities (main w version cmd)
        = BasicConfig level format :: map Event t)
    /\ (ending (main w version cmd) = Returned tt
        \/ ending (main w version cmd) = SysExit 1
        \/ exists e prompt t,
            ending (main w version cmd) = Uncaught e
            /\ getpass w prompt = Py.Raise e
            /\ activities (main w version cmd)
               = (t ++ [Event (GetPass prompt)])%list).
Proof.
  destruct (existsb stops_parsing (options cmd)) eqn:E.
  - destruct (main_stopped w version cmd E)
      as [->|[->|[(number & ->)|(message & ->)]]];
      cbn; auto.
  - destruct (parse_args_parsed version cmd E) as (a & Ea & Hraw & _).
    rewrite (main_parsed w version cmd a Ea).
    cbn [ending activities fst snd].
    assert (Hsetup : exists level format,
               logging_setup (debug a) (quiet a) = BasicConfig level format).
    { unfold logging_setup. destruct (debug a); [|destruct (quiet a)];
        now eexists _, _. }
    destruct Hsetup as (level & format & ->). split.
    + exists level, format.
      destruct (result (validate_args w a)) as [a'| |].
      * exists (trace (validate_args w a)
                ++ [LogInfo ("Coursera-dl v" ++ version
                             ++ " (" ++ parser a' ++ ")") []])%list.
        now rewrite map_app.
      * exists (trace (validate_args w a)). now rewrite List.app_nil_r.
      * exists (trace (validate_args w a)). now rewrite List.app_nil_r.
    + destruct (validate_args_ends w a Hraw)
        as [[a' ->]|[->|(e & -> & Hg & t & ->)]]; cbn [map_outcome].
      * now left.
      * right. now left.
      * right. right.
        exists e, ("Coursera password for " ++ format_opt (username a) ++ ": "),
          (BasicConfig level format :: map Event t).
        split; [reflexivity|]. split; [exact Hg|].
        rewrite List.app_nil_r, map_app. reflexivity.
Qed.

(** X15.  [--debug] wins over [--quiet], in whatever order the two are
    given: of a command line parsed to the end the first activity is the
    configuration of the logging, at level DEBUG when [--debug] occurs, else
    at level ERROR when [--quiet] occurs, else at level INFO, each with its
    own format; the logging is not configured again. *)
Theorem debug_wins_over_quiet w version cmd :
  existsb stops_parsing (options cmd) = false ->
  exists t,
    activities (main w version cmd)
    = (if existsb is_debug_option (options cmd) then
         BasicConfig DEBUG "%(name)s[%(funcName)s] %(message)s"
       else if existsb is_quiet_option (options cmd) then
         BasicConfig ERROR "%(name)s: %(message)s"
       else BasicConfig INFO "%(message)s")
      :: map Event t.
Proof.
  intros E.
  destruct (parse_args_parsed version cmd E)
    as (a & Ea & _ & _ & _ & Hdebug & Hquiet).
  rewrite (main_parsed w version cmd a Ea). cbn [activities fst].
  unfold logging_setup. rewrite Hdebug, Hquiet.
  destruct (result (validate_args w a)) as [a'| |].
  - exists (trace (validate_args w a)
            ++ [LogInfo ("Coursera-dl v" ++ version
                         ++ " (" ++ parser a' ++ ")") []])%list.
    now rewrite map_app.
  - exists (trace (validate_args w a)). now rewrite List.app_nil_r.
  - exists (trace (validate_args w a)). now rewrite List.app_nil_r.
Qed.

(** [--quiet --debug]: the level is DEBUG. *)
Lemma debug_wins_over_quiet_witness :
  exists t,
    activities (main lab "0.0.1" debug_alice)
    = BasicConfig DEBUG "%(name)s[%(funcName)s] %(message)s" :: map Event t.
Proof.
  apply (debug_wins_over_quiet lab "0.0.1" debug_alice). reflexivity.
Defined.

Lemma log_output_events level t rest :
  log_output (Some level) (map Event t ++ rest)
  = (filter (emitted level) t ++ log_output (Some level) rest)%list.
Proof.
  induction t as [|e t IH]; [reflexivity|].
  cbn [map app log_output filter]. rewrite IH.
  now destruct (emitted level e).
Qed.

Lemma parser_warning_quiet_level w a :
  filter (emitted ERROR) (parser_warning w a) = [].
Proof. unfold parser_warning. now destruct (_ && _). Qed.

(** What a logger at level ERROR lets through of a validation. *)
Lemma validate_args_at_error_level w a :
  match result (validate_args w a) with
  | SysExit _ =>
      exists msg params,
        filter (emitted ERROR) (trace (validate_args w a))
        = [LogError msg params]
  | _ => filter (emitted ERROR) (trace (validate_args w a)) = []
  end.
Proof.
  apply (validate_args_cases w a
           (fun r => match result r with
                     | SysExit _ =>
                         exists msg params,
                           filter (emitted ERROR) (trace r)
                           = [LogError msg params]
                     | _ => filter (emitted ERROR) (trace r) = []
                     end)).
  - intros _. cbn [result trace fst snd].
    rewrite filter_app, parser_warning_quiet_level. now eexists _, _.
  - intros _ _. cbn [result trace fst snd].
    rewrite filter_app, parser_warning_quiet_level. now eexists _, _.
  - intros e _ _ _. cbn [result trace fst snd].
    apply parser_warning_quiet_level.
  - intros _ _ _. cbn [result trace fst snd].
    rewrite filter_app, parser_warning_quiet_level. cbn [app].
    apply (check_credentials_cases w (sanitized a)
             (fun c => match result c with
                       | SysExit _ =>
                           exists msg params,
                             filter (emitted ERROR) (trace c)
                             = [LogError msg params]
                       | _ => filter (emitted ERROR) (trace c) = []
                       end));
      intros; cbn; try reflexivity; now eexists _, _.
Qed.

(** X16.  Under [--quiet] without [--debug] the log shows errors only: a
    program that returns has logged nothing at all, neither warning nor
    announcement; one that exits after the parsing has logged exactly one
    record, the error that ended it; one that the prompt ended with an
    exception has logged nothing. *)
Theorem quiet_shows_errors_only w version cmd :
  existsb stops_parsing (options cmd) = false ->
  existsb is_debug_option (options cmd) = false ->
  existsb is_quiet_option (options cmd) = true ->
  match ending (main w version cmd) with
  | SysExit _ =>
      exists msg params,
        log_output None (activities (main w version cmd))
        = [LogError msg params]
  | _ => log_output None (activities (main w version cmd)) = []
  end.
Proof.
  intros E Hd Hq.
  destruct (parse_args_parsed version cmd E)
    as (a & Ea & Hraw & _ & _ & Hdebug & Hquiet).
  rewrite (main_parsed w version cmd a Ea).
  cbn [ending activities fst snd].
  rewrite Hdebug, Hquiet, Hd, Hq. cbn [logging_setup log_output].
  rewrite log_output_events.
  pose proof (validate_args_at_error_level w a) as H.
  destruct (result (validate_args w a)) as [a'|code|e];
    cbn [map_outcome].
  - rewrite H. reflexivity.
  - destruct H as (msg & params & ->). now exists msg, params.
  - rewrite H. reflexivity.
Qed.

(** [coursera-dl -u alice -p secret --hooks a --quiet --hooks b ml-001]
    logs nothing. *)
Lemma quiet_shows_errors_only_witness :
  log_output None (activities (main lab "0.0.1" quiet_alice)) = [].
Proof.
  apply (quiet_shows_errors_only lab "0.0.1" quiet_alice
           eq_refl eq_refl eq_refl).
Defined.

(** The information records of a validation are the warning about the
    parser and the news that the netrc file had an entry. *)
Lemma validate_args_infos w a msg params :
  In (LogInfo msg params) (trace (validate_args w a)) ->
  msg = "Warning: 'html.parser' may cause problems on Python < 2.7.3"
  \/ msg = "Credentials found in .netrc file".
Proof.
  assert (Hw : In (LogInfo msg params) (parser_warning w a) ->
               msg = "Warning: 'html.parser' may cause problems on Python < 2.7.3").
  { unfold parser_warning. destruct (_ && _); cbn; [|tauto].
    intros [H|[]]. congruence. }
  apply (validate_args_cases w a
           (fun r => In (LogInfo msg params) (trace r) -> _));
    cbn [trace fst].
  - intros _ H. apply in_app_or in H. destruct H as [H|[H|[]]]; [auto|].
    discriminate.
  - intros _ _ H. apply in_app_or in H. destruct H as [H|[H|[]]]; [auto|].
    discriminate.
  - intros e _ _ _ H. auto.
  - intros _ _ _ H. apply in_app_or in H. destruct H as [H|H]; [auto|].
    revert H.
    apply (check_credentials_cases w (sanitized a)
             (fun c => In (LogInfo msg params) (trace c) -> _));
      cbn [trace fst]; intros; cbn in *;
      repeat match goal with
             | H : _ \/ _ |- _ => destruct H
             | H : False |- _ => destruct H
             end;
      try discriminate.
    right. congruence.
Qed.

(** X17.  [main] announces itself exactly when the validation returned:
    the announcement, which names the version and a known parser, is then
    the last thing [main] does, and [main] returns; a program that exits
    never makes it. *)
Theorem announcement_iff_validated w version cmd :
  (ending (main w version cmd) = Returned tt ->
   exists t parser_name,
     activities (main w version cmd)
     = (t ++ [announcement version parser_name])%list
     /\ In parser_name known_parsers)
  /\ (ending (main w version cmd) <> Returned tt ->
      forall parser_name,
        ~ In (announcement version parser_name)
            (activities (main w version cmd))).
Proof.
  destruct (existsb stops_parsing (options cmd)) eqn:E.
  - destruct (main_stopped w version cmd E)
      as [->|[->|[(number & ->)|(message & ->)]]];
      (split; [discriminate|]);
      intros _ p [H|[]]; discriminate.
  - destruct (parse_args_parsed version cmd E) as (a & Ea & Hraw & _).
    rewrite (main_parsed w version cmd a Ea).
    cbn [ending activities fst snd].
    destruct (result (validate_args w a)) as [a'|code|e] eqn:Er;
      cbn [map_outcome].
    + split; [|congruence]. intros _.
      exists (logging_setup (debug a) (quiet a)
              :: map Event (trace (validate_args w a))), (parser a').
      split; [reflexivity|].
      destruct (validated_parser w a a' Er) as [H _].
      apply existsb_exists in H. destruct H as [p [Hin Heq]].
      apply String.eqb_eq in Heq. now subst.
    + split; [discriminate|]. intros _ p [H|H].
      * unfold logging_setup in H.
        destruct (debug a); [|destruct (quiet a)]; discriminate.
      * rewrite List.app_nil_r in H. apply in_map_iff in H.
        destruct H as [ev [Hev Hin]]. injection Hev as ->.
        apply validate_args_infos in Hin. destruct Hin; discriminate.
    + split; [discriminate|]. intros _ p [H|H].
      * unfold logging_setup in H.
        destruct (debug a); [|destruct (quiet a)]; discriminate.
      * rewrite List.app_nil_r in H. apply in_map_iff in H.
        destruct H as [ev [Hev Hin]]. injection Hev as ->.
        apply validate_args_infos in Hin. destruct Hin; discriminate.
Qed.

(** [coursera-dl -u alice -p secret --hooks a --quiet --hooks b ml-001] *)
Lemma announcement_iff_validated_witness :
  exists t parser_name,
    activities (main lab "0.0.1" quiet_alice)
    = (t ++ [announcement "0.0.1" parser_name])%list
    /\ In parser_name known_parsers.
Proof.
  apply (announcement_iff_validated lab "0.0.1" quiet_alice). reflexivity.
Defined.
